(** * smart-chatbus: the rule-based NLP layer and the prediction contract of app.py

    A shallow embedding of [NLPProcessor], [XGBoostPredictor.predict_passengers]
    and the intent dispatch of [predict_from_prompt] (src/app.py), with the
    properties of the specification stated and proved over it.

    How the program is read:
    - text is a [string], taken as a sequence of code points below 256 (the
      Latin-1 range of [str]), with [lower], [strip], [isdigit], [int], [\d]
      and [\s] as Python has them on that range;
    - integers are [Z];
    - an exception is [None] in the [exc] monad, and [try ... except
      Exception] is [try_except];
    - the regular expressions are values of [Re.regex], run by a
      backtracking matcher that tries the alternatives in the order of [re];
    - the date of [datetime.now()] is a parameter [today], a proleptic
      Gregorian ordinal, and [strftime('%Y-%m-%d')] a parameter;
    - pandas' date parser, the pickled encoders and the booster, which are not
      part of the repository, are parameters of the predictor; the encoders
      that resave_encoders.py fits stand in for the pickled ones where a
      concrete encoder is wanted;
    - a request reaches a handler as what [request.get_json()] does with
      it, and the 500 answer of a handler's outer [except] is a reply of
      its own;
    - the canned [response] text of the replies is left out. *)

From Stdlib Require Import ZArith List Bool Lia Ascii String DecimalString.
Import ListNotations.
Open Scope string_scope.
Open Scope Z_scope.

(** ** Exceptions *)

Module Exc.

(** A computation that returns a value or raises. *)
Definition exc (A : Type) : Type := option A.

Definition ret {A} (a : A) : exc A := Some a.
Definition raise {A} : exc A := None.
Definition bind {A B} (m : exc A) (k : A -> exc B) : exc B :=
  match m with
  | Some a => k a
  | None => None
  end.

(** [try: body except: handler]. *)
Definition try_except {A} (body : exc A) (handler : A) : A :=
  match body with
  | Some a => a
  | None => handler
  end.

End Exc.
Import Exc.

Notation "x <- m ;; k" := (bind m (fun x => k))
  (at level 61, m at next level, right associativity).

(** ** Python [str] primitives on the Latin-1 range *)

Module Str.

Definition code (c : ascii) : nat := nat_of_ascii c.

(** [str.isspace] on one character, which is also the class [\s] of [re]
    for [str] patterns: TAB..CR, FS..US, SPACE, NEL and NBSP. *)
Definition is_space (c : ascii) : bool :=
  let n := code c in
  ((9 <=? n) && (n <=? 13) || (28 <=? n) && (n <=? 32)
   || (n =? 133) || (n =? 160))%nat.

(** The class [\d] of [re], and the digits [int] accepts: 0..9. *)
Definition is_decimal (c : ascii) : bool :=
  let n := code c in ((48 <=? n) && (n <=? 57))%nat.

(** [str.isdigit] on one character: the decimal digits and the superscripts
    two, three and one. *)
Definition is_digit_char (c : ascii) : bool :=
  let n := code c in
  (is_decimal c || (n =? 178) || (n =? 179) || (n =? 185))%nat.

(** [str.lower] on one character: A..Z and the accented capitals
    U+00C0..U+00DE (the multiplication sign U+00D7 apart) move up by 32. *)
Definition lower_char (c : ascii) : ascii :=
  let n := code c in
  if ((65 <=? n) && (n <=? 90)
      || (192 <=? n) && (n <=? 222) && negb (n =? 215))%nat
  then ascii_of_nat (n + 32) else c.

Fixpoint lower (s : string) : string :=
  match s with
  | EmptyString => EmptyString
  | String c s' => String (lower_char c) (lower s')
  end.

Fixpoint all_chars (p : ascii -> bool) (s : string) : bool :=
  match s with
  | EmptyString => true
  | String c s' => p c && all_chars p s'
  end.

(** [str.isdigit]: non-empty and every character a digit. *)
Definition isdigit (s : string) : bool :=
  match s with
  | EmptyString => false
  | _ => all_chars is_digit_char s
  end.

Fixpoint startswith (w s : string) : bool :=
  match w, s with
  | EmptyString, _ => true
  | String a w', String b s' => Ascii.eqb a b && startswith w' s'
  | String _ _, EmptyString => false
  end.

(** [w in s] for two strings. *)
Fixpoint contains (w s : string) : bool :=
  startswith w s ||
  match s with
  | EmptyString => false
  | String _ s' => contains w s'
  end.

Fixpoint lstrip_by (p : ascii -> bool) (s : string) : string :=
  match s with
  | EmptyString => EmptyString
  | String c s' => if p c then lstrip_by p s' else s
  end.

Fixpoint rstrip_by (p : ascii -> bool) (s : string) : string :=
  match s with
  | EmptyString => EmptyString
  | String c s' =>
      match rstrip_by p s' with
      | EmptyString => if p c then EmptyString else String c EmptyString
      | r => String c r
      end
  end.

(** [str.strip()]. *)
Definition strip (s : string) : string :=
  rstrip_by is_space (lstrip_by is_space s).

Fixpoint drop (n : nat) (s : string) : string :=
  match n, s with
  | O, _ => s
  | S n', String _ s' => drop n' s'
  | S _, EmptyString => EmptyString
  end.

Fixpoint take (n : nat) (s : string) : string :=
  match n, s with
  | O, _ => EmptyString
  | S n', String c s' => String c (take n' s')
  | S _, EmptyString => EmptyString
  end.

(** [s.split(sep)] for a one-character separator. *)
Fixpoint split (sep : ascii) (s : string) : list string :=
  match s with
  | EmptyString => [EmptyString]
  | String c s' =>
      if Ascii.eqb c sep then EmptyString :: split sep s'
      else match split sep s' with
           | p :: ps => String c p :: ps
           | [] => [String c EmptyString]
           end
  end.

(** [s.zfill(2)] for a string of digits (no sign to step over). *)
Definition zfill2 (s : string) : string :=
  match s with
  | EmptyString => "00"
  | String c EmptyString => String "0" s
  | _ => s
  end.

(** *** [int(s)] in base ten *)

(** The whitespace [int] skips around the number: [str.isspace] without
    the separators FS..US. *)
Definition is_int_space (c : ascii) : bool :=
  let n := code c in
  ((9 <=? n) && (n <=? 13) || (n =? 32) || (n =? 133) || (n =? 160))%nat.

Definition digit_value (c : ascii) : Z := Z.of_nat (code c) - 48.

(** Digits with single underscores between them; [sep] tells that the
    previous character was an underscore. *)
Fixpoint int_digits (acc : Z) (sep : bool) (s : string) : exc Z :=
  match s with
  | EmptyString => if sep then raise else ret acc
  | String c s' =>
      if is_decimal c then int_digits (10 * acc + digit_value c) false s'
      else if Ascii.eqb c "_" then
             if sep then raise else int_digits acc true s'
           else raise
  end.

Definition int_unsigned (s : string) : exc Z :=
  match s with
  | String c _ => if is_decimal c then int_digits 0 false s else raise
  | EmptyString => raise
  end.

(** [int(s)]: surrounding whitespace, an optional sign, then the digits;
    anything else raises ValueError. *)
Definition py_int (s : string) : exc Z :=
  match rstrip_by is_int_space (lstrip_by is_int_space s) with
  | String "-" r => n <- int_unsigned r ;; ret (- n)
  | String "+" r => int_unsigned r
  | r => int_unsigned r
  end.

(** *** [format(n, "02d")] *)

(** [str(n)] for [0 <= n]. *)
Definition decimal (n : Z) : string :=
  NilZero.string_of_uint (N.to_uint (Z.to_N n)).

(** [f"{n:02d}"]: the sign counts in the width. *)
Definition fmt02 (n : Z) : string :=
  if n <? 0 then String "-" (decimal (- n))
  else if n <? 10 then String "0" (decimal n)
  else decimal n.

End Str.
Import Str.

(** ** The fragment of [re] the patterns of app.py are written in *)

Module Re.

(** Every quantifier of the source applies to a character class ([\d{1,2}],
    [\s*], [\s+]) or is a [?]; all are greedy. *)
Inductive regex : Type :=
| Lit (s : string)                                    (* literal text *)
| Cls (p : ascii -> bool) (lo : nat) (hi : option nat)  (* class{lo,hi} *)
| Opt (r : regex)                                     (* r? *)
| Alt (r1 r2 : regex)                                 (* r1|r2 *)
| Seq (r1 r2 : regex)                                 (* r1 r2 *)
| Grp (i : nat) (r : regex).                          (* group number i *)

(** Concatenation of a list of pieces. *)
Fixpoint cat (rs : list regex) : regex :=
  match rs with
  | [] => Lit ""
  | [r] => r
  | r :: rs' => Seq r (cat rs')
  end.

(** [len(match.groups())]. *)
Fixpoint ngroups (r : regex) : nat :=
  match r with
  | Lit _ | Cls _ _ _ => 0
  | Opt r => ngroups r
  | Alt r1 r2 | Seq r1 r2 => ngroups r1 + ngroups r2
  | Grp _ r => S (ngroups r)
  end.

(** [match.group(i)]: the text of group [i], [None] when it took no part. *)
Definition groups : Type := nat -> option string.

Definition no_groups : groups := fun _ => None.

Definition set_group (i : nat) (w : string) (g : groups) : groups :=
  fun j => if Nat.eqb j i then Some w else g j.

(** Length of the run of class [p] at the head of [s]. *)
Fixpoint run (p : ascii -> bool) (s : string) : nat :=
  match s with
  | String c s' => if p c then S (run p s') else O
  | EmptyString => O
  end.

Definition cap (hi : option nat) (n : nat) : nat :=
  match hi with
  | Some h => Nat.min h n
  | None => n
  end.

(** The ways [r] matches at the head of [s], in the order the backtracking
    matcher tries them; each gives the rest of the text and the groups. *)
Fixpoint match_at (r : regex) (s : string) (g : groups)
  : list (string * groups) :=
  match r with
  | Lit l => if startswith l s then [(drop (String.length l) s, g)] else []
  | Cls p lo hi =>
      let k := cap hi (run p s) in
      map (fun n => (drop n s, g)) (rev (seq lo (S k - lo)))
  | Opt r1 => match_at r1 s g ++ [(s, g)]
  | Alt r1 r2 => match_at r1 s g ++ match_at r2 s g
  | Seq r1 r2 =>
      flat_map (fun '(s1, g1) => match_at r2 s1 g1) (match_at r1 s g)
  | Grp i r1 =>
      map (fun '(s1, g1) =>
             (s1, set_group i (take (String.length s - String.length s1) s) g1))
          (match_at r1 s g)
  end.

(** [re.search(r, s)]: the first match at the leftmost position that has
    one. *)
Fixpoint search (r : regex) (s : string) : option groups :=
  match match_at r s no_groups with
  | (_, g) :: _ => Some g
  | [] =>
      match s with
      | String _ s' => search r s'
      | EmptyString => None
      end
  end.

Definition digits (lo hi : nat) : regex := Cls is_decimal lo (Some hi).
Definition spaces0 : regex := Cls is_space 0 None.   (* \s* *)
Definition spaces1 : regex := Cls is_space 1 None.   (* \s+ *)

End Re.
Import Re.

(** ** The calendar of [datetime] *)

Module Calendar.

(** A date is its proleptic Gregorian ordinal ([date.toordinal()]);
    [datetime] holds the years 1 to 9999. *)
Definition MINORDINAL : Z := 1.
Definition MAXORDINAL : Z := 3652059.

Definition in_range (d : Z) : bool := (MINORDINAL <=? d) && (d <=? MAXORDINAL).

(** [d + timedelta(days=n)]: OverflowError outside the range. *)
Definition plus_days (d n : Z) : exc Z :=
  if in_range (d + n) then ret (d + n) else raise.

(** [date.weekday()]: Monday is 0. *)
Definition weekday (d : Z) : Z := (d + 6) mod 7.

Definition day_names : list string :=
  ["Monday"; "Tuesday"; "Wednesday"; "Thursday"; "Friday"; "Saturday";
   "Sunday"].

(** [d.strftime('%A')], in the C locale a Python process starts with. *)
Definition strftime_A (d : Z) : string :=
  nth (Z.to_nat (weekday d)) day_names "Monday".

End Calendar.
Import Calendar.

(** ** NLPProcessor (app.py, lines 33-270) *)

(** [any(k in text for k in keywords)]. *)
Definition any_in (keywords : list string) (text : string) : bool :=
  existsb (fun k => contains k text) keywords.

(** [for key, value in table.items(): if key in text: return value]. *)
Fixpoint first_in {A} (table : list (string * A)) (text : string) : option A :=
  match table with
  | [] => None
  | (key, value) :: rest =>
      if contains key text then Some value else first_in rest text
  end.

(** [swahili_keywords] of [detect_language]. *)
Definition swahili_language_keywords : list string :=
  ["je"; "saa"; "jumamosi"; "jumapili"; "jumatatu"; "jumanne"; "jumatano";
   "alhamisi"; "ijumaa"; "abiria"; "basi"; "leo"; "kesho"; "jana";
   "mchana"; "usiku"; "asubuhi"; "jioni"; "mvua"; "jua"; "baridi";
   "ni"; "kuna"; "ngapi"; "idadi"; "watu"; "wengi"; "wachache";
   "ninaweza"; "naomba"; "tafadhali"; "samahani"; "karibu"].

(** [sum(1 for word in swahili_keywords if word in text_lower)]. *)
Definition swahili_count (text_lower : string) : Z :=
  fold_right Z.add 0
    (map (fun _ => 1)
         (filter (fun word => contains word text_lower)
                 swahili_language_keywords)).

Definition detect_language (text : string) : string :=
  let text_lower := lower text in
  if 0 <? swahili_count text_lower then "Swahili" else "English".

Definition english_keywords : list string :=
  ["passenger"; "passengers"; "people"; "crowd"; "crowded"; "busy";
   "how many"; "predict"; "forecast"; "expect"; "anticipate";
   "will there be"; "going to be"; "travel time"; "best time";
   "when to travel"; "avoid crowds"; "less crowded"; "peak"; "rush"].

(** [swahili_keywords] of [is_prediction_request]. *)
Definition swahili_keywords : list string :=
  ["abiria"; "watu"; "idadi"; "ngapi"; "wengi"; "wachache";
   "msongamano"; "kujaa"; "tupu"; "wakati"; "bora"; "mzuri";
   "kusafiri"; "basi"; "gari"; "hatua"].

Definition time_indicators : list string :=
  ["monday"; "tuesday"; "wednesday"; "thursday"; "friday"; "saturday";
   "sunday";
   "jumatatu"; "jumanne"; "jumatano"; "alhamisi"; "ijumaa"; "jumamosi";
   "jumapili";
   "morning"; "afternoon"; "evening"; "night"; "asubuhi"; "mchana"; "jioni";
   "usiku";
   "today"; "tomorrow"; "yesterday"; "leo"; "kesho"; "jana";
   "am"; "pm"; "o'clock"; "saa"; ":";
   "1"; "2"; "3"; "4"; "5"; "6"; "7"; "8"; "9"; "10"; "11"; "12"].

Definition is_prediction_request (text : string) : bool :=
  let text_lower := lower text in
  let has_prediction_keyword :=
    any_in (english_keywords ++ swahili_keywords) text_lower in
  let has_time_indicator := any_in time_indicators text_lower in
  has_prediction_keyword || has_time_indicator.

Definition am_pm : regex := Alt (Lit "am") (Lit "pm").

Definition time_patterns : list regex :=
  [ (* (\d{1,2}):(\d{2})\s*(am|pm)? *)
    cat [Grp 1 (digits 1 2); Lit ":"; Grp 2 (digits 2 2); spaces0;
         Opt (Grp 3 am_pm)];
    (* (\d{1,2})\s*(am|pm) *)
    cat [Grp 1 (digits 1 2); spaces0; Grp 2 am_pm];
    (* at\s+(\d{1,2}):(\d{2}) *)
    cat [Lit "at"; spaces1; Grp 1 (digits 1 2); Lit ":"; Grp 2 (digits 2 2)];
    (* saa\s+(\d{1,2}) *)
    cat [Lit "saa"; spaces1; Grp 1 (digits 1 2)];
    (* (\d{1,2})\s*o\'?clock *)
    cat [Grp 1 (digits 1 2); spaces0; Lit "o"; Opt (Lit "'"); Lit "clock"] ].

(** [match.group(i)] where a group that took no part, like an empty one,
    counts as false. *)
Definition group_text (m : groups) (i : nat) : option string :=
  match m i with
  | Some EmptyString => None
  | other => other
  end.

(** The body of [if match:] in [extract_time_from_text]. *)
Definition time_of_match (pattern : regex) (m : groups) : exc string :=
  g1 <- m 1%nat ;;
  hour <- py_int g1 ;;
  minute <-
    (if (1 <? ngroups pattern)%nat then
       match group_text m 2 with
       | Some g2 => if isdigit g2 then py_int g2 else ret 0
       | None => ret 0
       end
     else ret 0) ;;
  let hour :=
    if (2 <? ngroups pattern)%nat then
      match group_text m 3 with
      | Some g3 =>
          if (lower g3 =? "pm")%string && negb (hour =? 12) then hour + 12
          else if (lower g3 =? "am")%string && (hour =? 12) then 0
          else hour
      | None => hour
      end
    else hour in
  ret (fmt02 hour ++ ":" ++ fmt02 minute).

(** [for pattern in time_patterns: ...]; [None] when no pattern matches. *)
Fixpoint first_time_match (patterns : list regex) (text_lower : string)
  : option (exc string) :=
  match patterns with
  | [] => None
  | pattern :: rest =>
      match search pattern text_lower with
      | Some m => Some (time_of_match pattern m)
      | None => first_time_match rest text_lower
      end
  end.

Definition named_times : list (string * string) :=
  [("morning", "08:00"); ("afternoon", "14:00"); ("evening", "18:00");
   ("night", "20:00"); ("noon", "12:00"); ("midnight", "00:00");
   ("dawn", "06:00"); ("dusk", "19:00");
   ("asubuhi", "08:00"); ("mchana", "12:00"); ("jioni", "18:00");
   ("usiku", "20:00")].

Definition extract_time_from_text (text : string) : exc string :=
  let text_lower := lower text in
  match first_time_match time_patterns text_lower with
  | Some result => result
  | None =>
      match first_in named_times text_lower with
      | Some time_value => ret time_value
      | None => ret "08:00"
      end
  end.

Definition weather_keywords : list (string * string) :=
  [("sunny", "Sunny"); ("rain", "Rainy"); ("rainy", "Rainy");
   ("cloudy", "Cloudy"); ("clear", "Sunny"); ("storm", "Rainy");
   ("drizzle", "Rainy");
   ("mvua", "Rainy"); ("jua", "Sunny"); ("mawingo", "Cloudy")].

Definition extract_weather_from_text (text : string) : string :=
  match first_in weather_keywords (lower text) with
  | Some weather => weather
  | None => "Sunny"
  end.

(** [is_peak_hours]: the hour is the text before the first colon. *)
Definition is_peak_hours (time_str : string) : exc string :=
  hour <- py_int (hd EmptyString (split ":" time_str)) ;;
  ret (if (7 <=? hour) && (hour <=? 9) || (17 <=? hour) && (hour <=? 19)
       then "Yes" else "No").

Definition is_weekend (day : string) : string :=
  if existsb (String.eqb day) ["Saturday"; "Sunday"] then "Yes" else "No".

Definition holiday_keywords : list string :=
  ["holiday"; "christmas"; "new year"; "easter"; "sikukuu"].

Definition is_holiday_from_text (text : string) : string :=
  if any_in holiday_keywords (lower text) then "Yes" else "No".

Definition english_days : list (string * string) :=
  [("monday", "Monday"); ("tuesday", "Tuesday"); ("wednesday", "Wednesday");
   ("thursday", "Thursday"); ("friday", "Friday"); ("saturday", "Saturday");
   ("sunday", "Sunday")].

Definition swahili_days : list (string * string) :=
  [("jumatatu", "Monday"); ("jumanne", "Tuesday"); ("jumatano", "Wednesday");
   ("alhamisi", "Thursday"); ("ijumaa", "Friday"); ("jumamosi", "Saturday");
   ("jumapili", "Sunday")].

Definition date_patterns : list regex :=
  [ (* (\d{4})-(\d{1,2})-(\d{1,2}) *)
    cat [Grp 1 (digits 4 4); Lit "-"; Grp 2 (digits 1 2); Lit "-";
         Grp 3 (digits 1 2)];
    (* (\d{1,2})/(\d{1,2})/(\d{4}) *)
    cat [Grp 1 (digits 1 2); Lit "/"; Grp 2 (digits 1 2); Lit "/";
         Grp 3 (digits 4 4)];
    (* (\d{1,2})-(\d{1,2})-(\d{4}) *)
    cat [Grp 1 (digits 1 2); Lit "-"; Grp 2 (digits 1 2); Lit "-";
         Grp 3 (digits 4 4)] ].

(** The body of [if match:] in [extract_date_from_text]; [index] is the
    place of the pattern in [date_patterns]. *)
Definition date_of_match (index : nat) (m : groups) : exc string :=
  g1 <- m 1%nat ;; g2 <- m 2%nat ;; g3 <- m 3%nat ;;
  if (index =? 0)%nat
  then ret (g1 ++ "-" ++ zfill2 g2 ++ "-" ++ zfill2 g3)
  else ret (g3 ++ "-" ++ zfill2 g1 ++ "-" ++ zfill2 g2).

Fixpoint first_date_match (index : nat) (patterns : list regex)
  (text_lower : string) : option (exc string) :=
  match patterns with
  | [] => None
  | pattern :: rest =>
      match search pattern text_lower with
      | Some m => Some (date_of_match index m)
      | None => first_date_match (S index) rest text_lower
      end
  end.

Record StructuredQuery : Type := {
  date : string;
  time : string;
  day : string;
  weather : string;
  peak_hours : string;
  weekends : string;
  holidays : string
}.

Section Extraction.

(** [d.strftime('%Y-%m-%d')], of the [datetime] library. *)
Variable strftime_ymd : Z -> string.

(** The date of [datetime.now()]. *)
Variable today : Z.

Definition extract_day_from_text (text : string) : exc string :=
  let text_lower := lower text in
  match first_in english_days text_lower with
  | Some day_name => ret day_name
  | None =>
      match first_in swahili_days text_lower with
      | Some day_name => ret day_name
      | None =>
          if contains "today" text_lower || contains "leo" text_lower
          then ret (strftime_A today)
          else if contains "tomorrow" text_lower
                  || contains "kesho" text_lower
          then d <- plus_days today 1 ;; ret (strftime_A d)
          else if contains "yesterday" text_lower
                  || contains "jana" text_lower
          then d <- plus_days today (-1) ;; ret (strftime_A d)
          else ret (strftime_A today)
      end
  end.

Definition extract_date_from_text (text : string) : exc string :=
  let text_lower := lower text in
  match first_date_match 0 date_patterns text_lower with
  | Some result => result
  | None =>
      if contains "today" text_lower || contains "leo" text_lower
      then ret (strftime_ymd today)
      else if contains "tomorrow" text_lower || contains "kesho" text_lower
      then d <- plus_days today 1 ;; ret (strftime_ymd d)
      else if contains "yesterday" text_lower || contains "jana" text_lower
      then d <- plus_days today (-1) ;; ret (strftime_ymd d)
      else ret (strftime_ymd today)
  end.

(** The [try] block of [extract_structured_data]. *)
Definition extract_fields (prompt : string) : exc StructuredQuery :=
  date_str <- extract_date_from_text prompt ;;
  time_str <- extract_time_from_text prompt ;;
  day <- extract_day_from_text prompt ;;
  let weather := extract_weather_from_text prompt in
  let holidays := is_holiday_from_text prompt in
  peak_hours <- is_peak_hours time_str ;;
  let weekends := is_weekend day in
  ret {| date := date_str; time := time_str; day := day; weather := weather;
         peak_hours := peak_hours; weekends := weekends;
         holidays := holidays |}.

(** The [except Exception] block: the safe defaults. *)
Definition safe_defaults : StructuredQuery :=
  {| date := strftime_ymd today;
     time := "08:00";
     day := strftime_A today;
     weather := "Sunny";
     peak_hours := "No";
     weekends := if 5 <=? weekday today then "Yes" else "No";
     holidays := "No" |}.

Definition extract_structured_data (prompt : string) : StructuredQuery :=
  try_except (extract_fields prompt) safe_defaults.

End Extraction.

(** ** XGBoostPredictor (app.py, lines 272-302) *)

(** A fitted [sklearn.preprocessing.LabelEncoder], as unpickled at startup.
    The encoder is an object of the library: [transform encoder label] is
    what [encoder.transform([label])[0]] returns, the ValueError of a label
    the encoder does not take being [None]. Which labels an encoder takes
    is for the library to say; [fit] below gives it for the encoders that
    resave_encoders.py writes. *)
Record LabelEncoder : Type := { transform : string -> exc Z }.

(** The dictionary [encoders] loaded at startup. *)
Record Encoders : Type := {
  day_encoder : LabelEncoder;
  weather_encoder : LabelEncoder;
  peak_hours_encoder : LabelEncoder;
  weekends_encoder : LabelEncoder;
  holidays_encoder : LabelEncoder
}.

(** A one-row [DataFrame]: its columns in order, each with its value. *)
Definition DataFrame : Type := list (string * Z).

Fixpoint column (name : string) (df : DataFrame) : exc Z :=
  match df with
  | [] => raise
  | (n, v) :: rest => if (n =? name)%string then ret v else column name rest
  end.

(** [df[names]]: the named columns in the order of [names]; KeyError on a
    name the frame lacks. *)
Fixpoint select (names : list string) (df : DataFrame) : exc DataFrame :=
  match names with
  | [] => ret []
  | n :: rest =>
      v <- column n df ;;
      tail <- select rest df ;;
      ret ((n, v) :: tail)
  end.

Definition training_feature_order : list string :=
  ["day"; "weather"; "time_value"; "peak_hours"; "weekends"; "holidays";
   "date_ordinal"].

(** [time_minutes] of [predict_passengers]: the first two colon-separated
    parts of the time, as hours and minutes. *)
Definition time_minutes (time_str : string) : exc Z :=
  let time_parts := split ":" time_str in
  p0 <- nth_error time_parts 0 ;;
  h <- py_int p0 ;;
  p1 <- nth_error time_parts 1 ;;
  m <- py_int p1 ;;
  ret (h * 60 + m).

Section Prediction.

(** [pd.to_datetime(s).toordinal()], of pandas. *)
Variable to_ordinal : string -> exc Z.

(** The encoders read from the [.pkl] files. *)
Variable encoders : Encoders.

(** [int(round(model.predict(frame)[0]))], of the loaded booster. *)
Variable model_predict : DataFrame -> exc Z.

(** The frame [input_data] handed to [model.predict]. *)
Definition input_data (structured_data : StructuredQuery) : exc DataFrame :=
  date_ordinal <- to_ordinal (date structured_data) ;;
  time_minutes <- time_minutes (time structured_data) ;;
  day_code <- transform (day_encoder encoders) (day structured_data) ;;
  weather_code <-
    transform (weather_encoder encoders) (weather structured_data) ;;
  peak_hours_code <-
    transform (peak_hours_encoder encoders) (peak_hours structured_data) ;;
  weekends_code <-
    transform (weekends_encoder encoders) (weekends structured_data) ;;
  holidays_code <-
    transform (holidays_encoder encoders) (holidays structured_data) ;;
  select training_feature_order
    [("date_ordinal", date_ordinal);
     ("time_value", time_minutes);
     ("day", day_code);
     ("weather", weather_code);
     ("peak_hours", peak_hours_code);
     ("weekends", weekends_code);
     ("holidays", holidays_code)].

Definition predict_passengers (structured_data : StructuredQuery) : Z :=
  try_except
    (frame <- input_data structured_data ;; model_predict frame)
    43.

End Prediction.

(** ** ConversationalResponseGenerator (app.py, lines 304-434) *)

(** The dictionary [get_crowding_insights] returns. *)
Record Insights : Type := {
  level : string;
  description : string;
  advice : string
}.

(** [get_crowding_insights(prediction, structured_data, language)]; the
    structured data is not looked at. *)
Definition get_crowding_insights (prediction : Z)
  (structured_data : StructuredQuery) (language : string) : Insights :=
  if (language =? "Swahili")%string then
    if prediction <? 20 then
      {| level := "kidogo sana";
         description := "Basi litakuwa tupu kabisa";
         advice := "Wakati mzuri kabisa wa kusafiri. Utapata nafasi nyingi na utaweza kukaa bila shida." |}
    else if prediction <? 35 then
      {| level := "kidogo";
         description := "Abiria wachache";
         advice := "Wakati mzuri wa kusafiri. Utapata nafasi ya kukaa na hewa safi." |}
    else if prediction <? 50 then
      {| level := "wastani";
         description := "Idadi ya kawaida ya abiria";
         advice := "Kiwango cha wastani cha abiria. Bado kuna nafasi za kutosha." |}
    else if prediction <? 65 then
      {| level := "wastani juu";
         description := "Abiria wengi kidogo";
         advice := "Basi linaweza kuwa na abiria wengi lakini bado linaweza kubebeka." |}
    else
      {| level := "msongamano";
         description := "Msongamano mkuu";
         advice := "Basi litakuwa limejaa kabisa. Fikiria kusafiri wakati mwingine au subiri basi jingine." |}
  else
    if prediction <? 20 then
      {| level := "very low";
         description := "Nearly empty bus";
         advice := "Perfect time to travel. You'll have plenty of space and a comfortable ride." |}
    else if prediction <? 35 then
      {| level := "low";
         description := "Few passengers";
         advice := "Great travel conditions with adequate seating and fresh air." |}
    else if prediction <? 50 then
      {| level := "moderate";
         description := "Average passenger count";
         advice := "Normal passenger levels with decent space availability." |}
    else if prediction <? 65 then
      {| level := "moderately high";
         description := "Getting crowded";
         advice := "The bus will be fairly busy, but still manageable." |}
    else
      {| level := "high";
         description := "Heavy crowding expected";
         advice := "Expect a packed bus. Consider traveling at a different time or waiting for the next one." |}.

(** [str(n)] of an integer, as [f"{n}"] prints it. *)
Definition py_str (n : Z) : string :=
  if n <? 0 then String "-" (decimal (- n)) else decimal n.

(** The local [time_display] of [generate_prediction_response] (lines
    378-392 and 412-420): the time of the structured data as the reply
    shows it. *)
Definition time_display (language time_str : string) : exc string :=
  let time_parts := split ":" time_str in
  p0 <- nth_error time_parts 0 ;;
  hour <- py_int p0 ;;
  p1 <- nth_error time_parts 1 ;;
  minute <- py_int p1 ;;
  if (language =? "Swahili")%string then
    if hour =? 0 then ret ("usiku wa manane (" ++ time_str ++ ")")
    else if hour <? 12
    then ret ("saa " ++ py_str hour ++ ":" ++ fmt02 minute ++ " asubuhi")
    else if hour =? 12 then ret ("saa 12:" ++ fmt02 minute ++ " mchana")
    else ret ("saa " ++ py_str (hour - 12) ++ ":" ++ fmt02 minute
              ++ " jioni")
  else
    if hour =? 0 then ret ("midnight (" ++ time_str ++ ")")
    else if hour <? 12 then
      let am_pm_hour := if negb (hour =? 0) then hour else 12 in
      ret (py_str am_pm_hour ++ ":" ++ fmt02 minute ++ " AM")
    else if hour =? 12 then ret ("12:" ++ fmt02 minute ++ " PM")
    else ret (py_str (hour - 12) ++ ":" ++ fmt02 minute ++ " PM").

(** [d[key]] for the items of a dictionary whose keys are distinct. *)
Fixpoint dict_get {A} (key : string) (items : list (string * A)) : option A :=
  match items with
  | [] => None
  | (k, v) :: rest => if (k =? key)%string then Some v else dict_get key rest
  end.

Definition swahili_day_names : list (string * string) :=
  [("Monday", "Jumatatu"); ("Tuesday", "Jumanne"); ("Wednesday", "Jumatano");
   ("Thursday", "Alhamisi"); ("Friday", "Ijumaa"); ("Saturday", "Jumamosi");
   ("Sunday", "Jumapili")].

(** The local [day_display] of the Swahili reply (lines 394-397):
    [{...}.get(day, day)]. *)
Definition day_display (day : string) : string :=
  match dict_get day swahili_day_names with
  | Some name => name
  | None => day
  end.

(** ** The endpoint /predict-from-prompt (app.py, lines 505-609) *)

Definition greetings : list string :=
  ["hello"; "hi"; "hey"; "good morning"; "good afternoon"; "good evening";
   "how are you"; "how do you do"; "what's up"; "howdy"; "greetings";
   "introduce yourself"; "who are you"; "what are you"; "what can you do";
   "habari"; "mambo"; "hujambo"; "salamu"; "shikamoo"; "vipi"; "sasa"].

Definition thank_you_phrases : list string :=
  ["thank you"; "thanks"; "thank u"; "thanku"; "thx"; "ty";
   "appreciate"; "grateful"; "nice"; "good job"; "well done";
   "awesome"; "great"; "perfect"; "excellent"; "amazing";
   "asante"; "shukran"; "gracias"; "merci"; "asanteni"].

(** What [generate_prediction_response] (lines 374-434) works out before
    it formats the text of the reply: the insights, the time and the day as
    the reply shows them. It raises where the two [int] of the time do. *)
Definition generate_prediction_response (prediction : Z)
  (structured_data : StructuredQuery) (language : string)
  : exc (Insights * string * string) :=
  let insights := get_crowding_insights prediction structured_data language in
  shown_time <- time_display language (time structured_data) ;;
  let shown_day :=
    if (language =? "Swahili")%string
    then day_display (day structured_data)
    else day structured_data in
  ret (insights, shown_time, shown_day).

(** The JSON reply without its canned [response] text: the 400 answer with
    its [error], the fields of the 200 answer, or the 500 answer of the
    outer [except], which has 0 passengers, no extracted data and the
    message type error. *)
Inductive Response : Type :=
| BadRequest (error : string)
| Reply (predicted_passengers : Z) (extracted_data : option StructuredQuery)
        (language_detected : string) (message_type : string)
| ServerError (language_detected : string).

Definition message_type_of (r : Response) : option string :=
  match r with
  | BadRequest _ => None
  | Reply _ _ _ message_type => Some message_type
  | ServerError _ => Some "error"
  end.

(** What a handler gets from [request.get_json()]: the call raises on a
    request whose body it cannot read as JSON, and returns the value read
    otherwise. *)
Inductive Request (A : Type) : Type :=
| NotJson
| Json (data : A).

Arguments NotJson {A}.
Arguments Json {A} data.

(** How /predict-from-prompt and /extract-data get on with the value read,
    up to [prompt = data['prompt'].strip()]:
    - [NoPrompt]: [not data or 'prompt' not in data] holds, as of null, an
      empty object and an object without the key prompt;
    - [NotText]: the test, the lookup or [strip] raises, as [strip] does
      on a prompt that is not a string (a number, null, a list, an object)
      and the test on a body that is true or a number other than 0;
    - [Text text]: [data['prompt']] is the string [text]. *)
Inductive PromptField : Type :=
| NoPrompt
| NotText
| Text (text : string).

Section Endpoint.

Variable strftime_ymd : Z -> string.
Variable today : Z.
Variable to_ordinal : string -> exc Z.
Variable encoders : Encoders.
Variable model_predict : DataFrame -> exc Z.

(** The handler once [request.get_json()] has returned. [body] is the text
    under the key prompt, and [None] when [not data or 'prompt' not in
    data]. In the prediction branch the outer [except] catches what
    [generate_prediction_response] raises, with [prompt] bound; the
    extraction and the predictor catch what they raise themselves. *)
Definition predict_from_prompt (body : option string) : Response :=
  match body with
  | None => BadRequest "No prompt provided"
  | Some text =>
      let prompt := strip text in
      if (prompt =? "")%string then BadRequest "Empty prompt provided"
      else
        let prompt_lower := lower prompt in
        let language := detect_language prompt in
        if any_in greetings prompt_lower
        then Reply 0 None language "greeting"
        else if any_in thank_you_phrases prompt_lower
        then Reply 0 None language "thank_you"
        else if is_prediction_request prompt
        then
          let structured_data :=
            extract_structured_data strftime_ymd today prompt in
          let prediction :=
            predict_passengers to_ordinal encoders model_predict
                               structured_data in
          match generate_prediction_response prediction structured_data
                                             language with
          | Some _ =>
              Reply prediction (Some structured_data) language "prediction"
          | None => ServerError language
          end
        else Reply 0 None language "fallback"
  end.

(** The handler on every request. When [get_json()] raises, or the reading
    of the prompt, the outer [except] finds no [prompt] among the locals
    and answers in English. *)
Definition route_predict_from_prompt (request : Request PromptField)
  : Response :=
  match request with
  | NotJson => ServerError "English"
  | Json NotText => ServerError "English"
  | Json NoPrompt => predict_from_prompt None
  | Json (Text text) => predict_from_prompt (Some text)
  end.

End Endpoint.

(** ** The encoders of resave_encoders.py *)

Fixpoint insert_sorted (label : string) (sorted : list string) : list string :=
  match sorted with
  | [] => [label]
  | c :: rest =>
      if (label =? c)%string then sorted
      else if String.ltb label c then label :: sorted
      else c :: insert_sorted label rest
  end.

(** [fit] puts the labels into a numpy array of fixed-width strings: every
    cell holds [itemsize] characters, the length of the longest label (one
    for an array of empty strings), and a cell is read up to its trailing
    NUL characters. [str_ width label] is the label as such a cell gives it
    back. *)
Definition is_nul (c : ascii) : bool := Ascii.eqb c "000"%char.

Definition str_ (width : nat) (label : string) : string :=
  rstrip_by is_nul (take width label).

Definition itemsize (labels : list string) : nat :=
  fold_right Nat.max 1%nat (map String.length labels).

(** The attribute [classes_] after [fit(labels)]: [np.unique] of the array,
    its distinct cells in increasing order. *)
Definition classes_ (labels : list string) : list string :=
  fold_right insert_sorted [] (map (str_ (itemsize labels)) labels).

Fixpoint index_of (label : string) (classes : list string) : exc Z :=
  match classes with
  | [] => raise
  | c :: rest =>
      if (c =? label)%string then ret 0
      else i <- index_of label rest ;; ret (i + 1)
  end.

(** [LabelEncoder().fit(labels)] of scikit-learn 1.7 on a list of strings.
    [transform] first casts the label to the type of [classes_], which cuts
    it to [itemsize] characters, and then looks the cell up among the
    classes: ValueError when it is none of them. *)
Definition fit (labels : list string) : LabelEncoder :=
  {| transform := fun label =>
       index_of (str_ (itemsize labels) label) (classes_ labels) |}.

Definition resaved_encoders : Encoders :=
  {| day_encoder :=
       fit ["Friday"; "Monday"; "Saturday"; "Sunday"; "Thursday"; "Tuesday";
            "Wednesday"];
     weather_encoder := fit ["Rainy"; "Sunny"; "Cloudy"];
     peak_hours_encoder := fit ["No"; "Yes"];
     weekends_encoder := fit ["No"; "Yes"];
     holidays_encoder := fit ["No"; "Yes"] |}.

(** ** Stand-ins for the collaborators outside the repository *)

(** A [pd.to_datetime(...).toordinal()] that knows three ISO dates. *)
Definition demo_to_ordinal (s : string) : exc Z :=
  if (s =? "2025-12-25")%string then ret 739610
  else if (s =? "2025-12-27")%string then ret 739612
  else if (s =? "9999-12-31")%string then ret MAXORDINAL
  else raise.

(** A model that answers 50 to a frame of seven columns and raises on
    any other. *)
Definition demo_model (frame : DataFrame) : exc Z :=
  if (List.length frame =? 7)%nat then ret 50 else raise.

Definition demo_query : StructuredQuery :=
  {| date := "2025-12-25"; time := "17:30"; day := "Thursday";
     weather := "Rainy"; peak_hours := "Yes"; weekends := "No";
     holidays := "No" |}.

(** The same query with a weather label no encoder was fitted on. *)
Definition foggy_query : StructuredQuery :=
  {| date := "2025-12-25"; time := "17:30"; day := "Thursday";
     weather := "Foggy"; peak_hours := "Yes"; weekends := "No";
     holidays := "No" |}.

(** ** The properties the specification states *)

(** The hour [is_peak_hours] reads from the [time] field. *)
Definition hour_of (q : StructuredQuery) : exc Z :=
  py_int (hd EmptyString (split ":" (time q))).

Definition peak_hour_set : list Z := [7; 8; 9; 17; 18; 19].

(** [peak_hours] is Yes exactly when the hour of [time] is a peak hour. *)
Definition peak_consistent (q : StructuredQuery) : Prop :=
  exists hour, hour_of q = Some hour /\
               (peak_hours q = "Yes" <-> In hour peak_hour_set).

(** [weekends] is Yes exactly when [day] is Saturday or Sunday. *)
Definition weekend_consistent (q : StructuredQuery) : Prop :=
  weekends q = "Yes" <-> (day q = "Saturday" \/ day q = "Sunday").




(** What a match of [r] on the text [w] means, with the groups before and
    after it. *)
Fixpoint sem (r : regex) (w : string) (g g' : groups) : Prop :=
  match r with
  | Lit l => w = l /\ g' = g
  | Cls p lo hi =>
      all_chars p w = true /\ (lo <= String.length w)%nat /\
      match hi with
      | Some h => (String.length w <= h)%nat
      | None => True
      end /\ g' = g
  | Opt r1 => sem r1 w g g' \/ (w = EmptyString /\ g' = g)
  | Alt r1 r2 => sem r1 w g g' \/ sem r2 w g g'
  | Seq r1 r2 =>
      exists w1 w2 g1, w = w1 ++ w2 /\ sem r1 w1 g g1 /\ sem r2 w2 g1 g'
  | Grp i r1 => exists g1, sem r1 w g g1 /\ g' = set_group i w g1
  end.

(** The shape of what the time extractor returns: hour and minute as
    [f"{hour:02d}:{minute:02d}"] prints them, within the largest values two
    captured digits and the pm shift can give. *)
Definition time_ok (r : exc string) : Prop :=
  exists hour minute,
    r = Some (fmt02 hour ++ ":" ++ fmt02 minute) /\
    0 <= hour <= 111 /\ 0 <= minute <= 99.

(** Some step of [predict_passengers] before the model raises. *)
Definition encoding_raises (to_ordinal : string -> exc Z)
  (encoders : Encoders) (sd : StructuredQuery) : Prop :=
  to_ordinal (date sd) = None \/
  time_minutes (time sd) = None \/
  transform (day_encoder encoders) (day sd) = None \/
  transform (weather_encoder encoders) (weather sd) = None \/
  transform (peak_hours_encoder encoders) (peak_hours sd) = None \/
  transform (weekends_encoder encoders) (weekends sd) = None \/
  transform (holidays_encoder encoders) (holidays sd) = None.

(** ** The endpoints /predict-structured and /extract-data (app.py, lines
    611-675) *)

(** A JSON object whose values are strings: its items, keys distinct. *)
Definition JsonObject : Type := list (string * string).

Definition required_fields : list string :=
  ["date"; "time"; "day"; "weather"; "peak_hours"; "weekends"; "holidays"].

(** [for field in required_fields: if field not in data: return ...]. *)
Fixpoint first_missing (fields : list string) (data : JsonObject)
  : option string :=
  match fields with
  | [] => None
  | field :: rest =>
      match dict_get field data with
      | None => Some field
      | Some _ => first_missing rest data
      end
  end.

(** The fields [predict_passengers] reads from the dictionary; a missing
    key is a KeyError. *)
Definition query_of (data : JsonObject) : exc StructuredQuery :=
  date <- dict_get "date" data ;;
  time <- dict_get "time" data ;;
  day <- dict_get "day" data ;;
  weather <- dict_get "weather" data ;;
  peak_hours <- dict_get "peak_hours" data ;;
  weekends <- dict_get "weekends" data ;;
  holidays <- dict_get "holidays" data ;;
  ret {| date := date; time := time; day := day; weather := weather;
         peak_hours := peak_hours; weekends := weekends;
         holidays := holidays |}.

(** The 400 answer, the 200 answer, or the 500 answer of the outer
    [except] with its error "Prediction failed: ...". *)
Inductive StructuredResponse : Type :=
| StructuredBadRequest (error : string)
| StructuredReply (predicted_passengers : Z) (crowding_level : string)
                  (input_data : JsonObject)
| StructuredServerError.

(** The same for /extract-data; the 500 answer has the error "Extraction
    failed: ...". *)
Inductive ExtractResponse : Type :=
| ExtractBadRequest (error : string)
| ExtractReply (extracted_data : StructuredQuery) (language_detected : string)
               (original_prompt : string) (is_prediction_request : bool)
| ExtractServerError.

Section MoreEndpoints.

Variable strftime_ymd : Z -> string.
Variable today : Z.
Variable to_ordinal : string -> exc Z.
Variable encoders : Encoders.
Variable model_predict : DataFrame -> exc Z.

(** [predict_passengers(data)] on the dictionary of the request. *)
Definition predict_passengers_of (data : JsonObject) : Z :=
  try_except
    (sd <- query_of data ;;
     frame <- input_data to_ordinal encoders sd ;;
     model_predict frame)
    43.

(** The handler once [request.get_json()] has returned. [body] is the value
    read: [None] for null, and the items of an object otherwise; [not data]
    holds of null and of the empty object. Nothing raises past the
    predictor's own [except]. *)
Definition predict_structured (body : option JsonObject)
  : StructuredResponse :=
  match body with
  | None | Some [] => StructuredBadRequest "No structured data provided"
  | Some data =>
      match first_missing required_fields data with
      | Some field =>
          StructuredBadRequest ("Missing required field: " ++ field)
      | None =>
          let prediction := predict_passengers_of data in
          let level :=
            if prediction <? 30 then "low"
            else if prediction <? 60 then "moderate"
            else "high" in
          StructuredReply prediction level data
      end
  end.

(** The handler on a request whose body, where [get_json()] reads one, is
    null or an object: the outer [except] answers 500 when [get_json()]
    raises. *)
Definition route_predict_structured (request : Request (option JsonObject))
  : StructuredResponse :=
  match request with
  | NotJson => StructuredServerError
  | Json body => predict_structured body
  end.

(** The handler once [request.get_json()] has returned; [body] is as for
    [predict_from_prompt]. Nothing raises on a text. *)
Definition extract_data_only (body : option string) : ExtractResponse :=
  match body with
  | None => ExtractBadRequest "No prompt provided"
  | Some text =>
      let prompt := strip text in
      if (prompt =? "")%string then ExtractBadRequest "Empty prompt provided"
      else
        let structured_data :=
          extract_structured_data strftime_ymd today prompt in
        let language := detect_language prompt in
        ExtractReply structured_data language prompt
                     (is_prediction_request prompt)
  end.

(** The handler on every request: the outer [except] answers 500 when
    [get_json()] raises, or the reading of the prompt. *)
Definition route_extract_data (request : Request PromptField)
  : ExtractResponse :=
  match request with
  | NotJson => ExtractServerError
  | Json NotText => ExtractServerError
  | Json NoPrompt => extract_data_only None
  | Json (Text text) => extract_data_only (Some text)
  end.

End MoreEndpoints.

(** ** The offline scripts *)

(** [convert_to_minutes] of xgboost_performance.py (lines 36-50), on a
    text cell; the bare [except] answers 0. *)
Definition convert_to_minutes (time_str : string) : Z :=
  try_except
    (let time_str := strip time_str in
     if (time_str =? "")%string || (time_str =? ":00")%string then ret 0
     else
       let time_parts := split ":" time_str in
       if (2 <=? List.length time_parts)%nat then
         p0 <- nth_error time_parts 0 ;;
         hour <- (if isdigit p0 then py_int p0 else ret 0) ;;
         p1 <- nth_error time_parts 1 ;;
         minute <- (if isdigit p1 then py_int p1 else ret 0) ;;
         ret (Z.max 0 (Z.min 1440 (hour * 60 + minute)))
       else ret 0)
    0.

(** The columns of a frame, by name and in order. [df[name] = ...] keeps
    the place of a column the frame has and appends a new one. *)
Definition has_column (name : string) (columns : list string) : bool :=
  existsb (String.eqb name) columns.

Definition assign_column (name : string) (columns : list string)
  : list string :=
  if has_column name columns then columns else columns ++ [name].

(** [df.drop(columns=[name])]: KeyError when the frame has no such column. *)
Definition drop_column (name : string) (columns : list string)
  : exc (list string) :=
  if has_column name columns
  then ret (filter (fun c => negb (c =? name)%string) columns)
  else raise.

(** [df[name]], read for its side: KeyError when absent. *)
Definition require_column (name : string) (columns : list string) : exc unit :=
  if has_column name columns then ret tt else raise.

Fixpoint require_columns (names : list string) (columns : list string)
  : exc unit :=
  match names with
  | [] => ret tt
  | n :: rest =>
      _ <- require_column n columns ;; require_columns rest columns
  end.

(** The column names of [X] in xgboost_performance.py (lines 24-57), from
    those of the CSV file: its [training_feature_order]. *)
Definition training_columns (csv_columns : list string) : exc (list string) :=
  _ <- require_column "date" csv_columns ;;
  let columns := assign_column "date_ordinal" csv_columns in
  let columns := assign_column "day" columns in
  columns <- drop_column "date" columns ;;
  _ <- require_columns ["day"; "weather"; "peak_hours"; "weekends";
                        "holidays"] columns ;;
  _ <- require_column "time_value" columns ;;
  drop_column "passengers" columns.

(** The keys of a row of generate.py (lines 67-76), the columns of the CSV
    file it writes. *)
Definition generated_columns : list string :=
  ["date"; "day"; "time_value"; "passengers"; "weather"; "peak_hours";
   "weekends"; "holidays"].

(** [range(a, b)]. *)
Definition py_range (a b : Z) : list Z :=
  map (fun i => a + Z.of_nat i) (seq 0 (Z.to_nat (b - a))).

(** [generate_time_slots] of generate.py (lines 25-30). *)
Definition generate_time_slots : list string :=
  flat_map
    (fun hour =>
       map (fun minute => fmt02 hour ++ ":" ++ fmt02 minute ++ ":00")
           [0; 15; 30; 45])
    (py_range 5 22).

(** [hour = int(time[:2])] and [is_peak] of generate.py (lines 48-49). *)
Definition slot_hour (time : string) : exc Z := py_int (take 2 time).

Definition dataset_is_peak (hour : Z) : bool :=
  (6 <=? hour) && (hour <? 9) || (16 <=? hour) && (hour <? 19).

(** The test of [is_peak_hours] of app.py on the hour. *)
Definition server_is_peak (hour : Z) : bool :=
  (7 <=? hour) && (hour <=? 9) || (17 <=? hour) && (hour <=? 19).

(** ** Further properties read off the code *)

(** Every categorical field holds a label the encoders of
    resave_encoders.py were fitted on. *)
Definition in_vocabulary (q : StructuredQuery) : Prop :=
  In (day q) day_names /\
  In (weather q) ["Sunny"; "Rainy"; "Cloudy"] /\
  In (peak_hours q) ["No"; "Yes"] /\
  In (weekends q) ["No"; "Yes"] /\
  In (holidays q) ["No"; "Yes"].

(** A date written as four, two and two decimal digits with dashes
    between; nothing is said of the month and the day being real ones. *)
Definition date_shaped (s : string) : Prop :=
  exists y m d,
    s = y ++ "-" ++ m ++ "-" ++ d /\
    all_chars is_decimal y = true /\ String.length y = 4%nat /\
    all_chars is_decimal m = true /\ String.length m = 2%nat /\
    all_chars is_decimal d = true /\ String.length d = 2%nat.

(** A [strftime('%Y-%m-%d')] that knows the days around 2025-12-25. *)
Definition demo_strftime_ymd (d : Z) : string :=
  if d =? 739609 then "2025-12-24"
  else if d =? 739610 then "2025-12-25"
  else if d =? 739611 then "2025-12-26"
  else if d =? 739612 then "2025-12-27"
  else "9999-12-31".

(** The Swahili words the day, time, weather and relative-day tables of
    the extractors react to, [mawingo] apart. *)
Definition swahili_extractor_words : list string :=
  map fst swahili_days
  ++ ["asubuhi"; "mchana"; "jioni"; "usiku"; "saa"; "mvua"; "jua";
      "leo"; "kesho"; "jana"].

(** A body for /predict-structured with one key more than required. *)
Definition demo_body : JsonObject :=
  [("date", "2025-12-25"); ("time", "17:30"); ("day", "Thursday");
   ("weather", "Rainy"); ("peak_hours", "Yes"); ("weekends", "No");
   ("holidays", "No"); ("route", "B2")].

(** The same body with a weather label no encoder was fitted on. *)
Definition foggy_body : JsonObject :=
  [("date", "2025-12-25"); ("time", "17:30"); ("day", "Thursday");
   ("weather", "Foggy"); ("peak_hours", "Yes"); ("weekends", "No");
   ("holidays", "No")].

(** The columns of the file that stay as features: all but date and
    passengers, in the order of the file. *)
Definition csv_features (csv_columns : list string) : list string :=
  filter (fun c => negb (c =? "passengers")%string)
         (filter (fun c => negb (c =? "date")%string) csv_columns).

(** ** Facts about strings *)

Module StrFacts.

Lemma append_nil_r (s : string) : s ++ "" = s.
Proof. induction s; simpl; congruence. Qed.

Lemma append_assoc (a b c : string) : (a ++ b) ++ c = a ++ b ++ c.
Proof. induction a; simpl; congruence. Qed.

Lemma length_append (a b : string) :
  String.length (a ++ b) = (String.length a + String.length b)%nat.
Proof. induction a; simpl; congruence. Qed.

Lemma drop_append (w s : string) : drop (String.length w) (w ++ s) = s.
Proof. induction w; simpl; auto. Qed.

Lemma take_append (w s : string) : take (String.length w) (w ++ s) = w.
Proof. induction w; simpl; congruence. Qed.

Lemma take_drop (n : nat) (s : string) : take n s ++ drop n s = s.
Proof.
  revert s; induction n as [|n IH]; intros [|c s]; simpl; auto.
  now rewrite IH.
Qed.

Lemma startswith_spec (w s : string) :
  startswith w s = true <-> exists b, s = w ++ b.
Proof.
  revert s; induction w as [|a w IH]; intros s; simpl.
  - split; eauto.
  - destruct s as [|b s].
    + split; [discriminate | intros [x Hx]; discriminate].
    + rewrite andb_true_iff, IH. split.
      * intros [Hab [x ->]]. apply Ascii.eqb_eq in Hab. subst. eauto.
      * intros [x Hx]. injection Hx as -> ->.
        split; [apply Ascii.eqb_refl | eauto].
Qed.

Lemma contains_spec (w s : string) :
  contains w s = true <-> exists a b, s = a ++ w ++ b.
Proof.
  induction s as [|c s IH]; simpl.
  - rewrite orb_false_r, startswith_spec. split.
    + intros [b Hb]. exists "", b. exact Hb.
    + intros [[|x a] [b Hb]]; [eauto | discriminate].
  - rewrite orb_true_iff, IH, startswith_spec. split.
    + intros [[b Hb] | [a [b Hb]]].
      * exists "", b. exact Hb.
      * exists (String c a), b. simpl. now rewrite Hb.
    + intros [[|x a] [b Hb]].
      * left. eauto.
      * right. injection Hb as _ ->. eauto.
Qed.

Lemma lower_append (a b : string) : lower (a ++ b) = lower a ++ lower b.
Proof. induction a; simpl; congruence. Qed.

(** A word found in a text is found, lower-cased, in the lower-cased text. *)
Lemma contains_lower (w s : string) :
  contains w s = true -> contains (lower w) (lower s) = true.
Proof.
  rewrite !contains_spec. intros [a [b ->]].
  exists (lower a), (lower b). now rewrite !lower_append.
Qed.

Lemma any_in_spec (keywords : list string) (text : string) :
  any_in keywords text = true <->
  exists k, In k keywords /\ contains k text = true.
Proof. unfold any_in. apply existsb_exists. Qed.

End StrFacts.
Import StrFacts.

Example lower_mixed : lower "How Many at 8 AM?" = "how many at 8 am?".
Proof. reflexivity. Qed.

Example strip_both : strip "  8 pm " = "8 pm".
Proof. reflexivity. Qed.

Example py_int_forms :
  py_int "08" = Some 8 /\ py_int " -1_0 " = Some (-10) /\ py_int "8a" = None
  /\ py_int "" = None /\ py_int "1__0" = None.
Proof. repeat split; reflexivity. Qed.

Example fmt02_forms :
  fmt02 0 = "00" /\ fmt02 8 = "08" /\ fmt02 25 = "25" /\ fmt02 111 = "111"
  /\ fmt02 1000 = "1000".
Proof. repeat split; reflexivity. Qed.

Example split_forms :
  split ":" "08:00" = ["08"; "00"] /\ split ":" "08" = ["08"]
  /\ split ":" "1:2:3" = ["1"; "2"; "3"] /\ split ":" "" = [""].
Proof. repeat split; reflexivity. Qed.

(** ** Language detection *)

Lemma count_nonneg {A} (f : A -> bool) (l : list A) :
  0 <= fold_right Z.add 0 (map (fun _ => 1) (filter f l)).
Proof.
  induction l as [|a l IH]; cbn [filter map fold_right]; [lia|].
  destruct (f a); cbn [map fold_right]; lia.
Qed.

Lemma count_positive {A} (f : A -> bool) (l : list A) (a : A) :
  In a l -> f a = true ->
  0 < fold_right Z.add 0 (map (fun _ => 1) (filter f l)).
Proof.
  induction l as [|b l IH]; cbn [In filter]; [tauto|].
  intros [-> | Hin] Hf.
  - rewrite Hf. cbn [map fold_right]. pose proof (count_nonneg f l). lia.
  - specialize (IH Hin Hf). destruct (f b); cbn [map fold_right]; lia.
Qed.

(** One Swahili keyword in the lower-cased text settles the language. *)
Lemma detect_language_keyword (k text : string) :
  In k swahili_language_keywords ->
  contains k (lower text) = true ->
  detect_language text = "Swahili".
Proof.
  intros Hin Hk. unfold detect_language, swahili_count.
  pose proof (count_positive (fun word => contains word (lower text))
                swahili_language_keywords k Hin Hk) as Hpos.
  apply Z.ltb_lt in Hpos. now rewrite Hpos.
Qed.

(** C10 (as amended): every text that contains "ni" as a substring is
    classified as Swahili by [detect_language], whatever else it says;
    English words such as night, morning and evening contain it. *)
Theorem C10_ni_substring_is_swahili (text : string) :
  contains "ni" text = true -> detect_language text = "Swahili".
Proof.
  intros H. apply (detect_language_keyword "ni").
  - unfold swahili_language_keywords. simpl. tauto.
  - apply (contains_lower "ni" text H).
Qed.

Lemma C10_ni_substring_witness :
  contains "ni" "Is the bus busy at night?" = true /\
  detect_language "Is the bus busy at night?" = "Swahili".
Proof.
  split; [reflexivity|].
  apply (C10_ni_substring_is_swahili "Is the bus busy at night?").
  reflexivity.
Defined.

(** C10 (as stated) fails on its last example: "until" has no "ni" in it
    and no other Swahili keyword, and is classified as English. *)
Lemma C10_until_is_english :
  contains "ni" "until" = false /\ detect_language "until" = "English" /\
  detect_language "wait until the bus leaves" = "English".
Proof. repeat split; reflexivity. Qed.

Example english_words_with_ni :
  map detect_language ["night"; "Morning"; "this evening"]
  = ["Swahili"; "Swahili"; "Swahili"].
Proof. reflexivity. Qed.

(** ** Facts about the matcher *)

Module ReFacts.

Lemma run_le_length (p : ascii -> bool) (s : string) :
  (run p s <= String.length s)%nat.
Proof. induction s as [|c s IH]; simpl; [lia|]. destruct (p c); lia. Qed.

Lemma length_take (n : nat) (s : string) :
  (n <= String.length s)%nat -> String.length (take n s) = n.
Proof.
  revert s; induction n as [|n IH]; intros [|c s]; simpl; intros H;
    try lia.
  rewrite IH; lia.
Qed.

Lemma all_chars_take_run (p : ascii -> bool) (n : nat) (s : string) :
  (n <= run p s)%nat -> all_chars p (take n s) = true.
Proof.
  revert s; induction n as [|n IH]; intros [|c s]; simpl; auto.
  destruct (p c) eqn:Hc; intros H; [|lia].
  simpl. apply IH. lia.
Qed.

Lemma cap_le (hi : option nat) (n : nat) : (cap hi n <= n)%nat.
Proof. destruct hi; simpl; lia. Qed.

(** Every way the matcher finds is a match in the sense of [sem], of the
    text it consumed. *)
Lemma match_at_sound (r : regex) :
  forall s g s' g',
    In (s', g') (match_at r s g) -> exists w, s = w ++ s' /\ sem r w g g'.
Proof.
  induction r as [l | p lo hi | r IH | r1 IH1 r2 IH2 | r1 IH1 r2 IH2 | i r IH];
    intros s g s' g' Hin; cbn [match_at] in Hin.
  - destruct (startswith l s) eqn:Hl; [|contradiction].
    apply startswith_spec in Hl. destruct Hl as [b ->].
    destruct Hin as [Heq | []]. injection Heq as <- <-.
    exists l. rewrite drop_append. simpl. auto.
  - apply in_map_iff in Hin. destruct Hin as [n [Heq Hn]].
    injection Heq as <- <-.
    apply in_rev, in_seq in Hn.
    pose proof (cap_le hi (run p s)) as Hcap.
    pose proof (run_le_length p s) as Hrun.
    exists (take n s). split; [now rewrite take_drop|].
    assert (Hk : (lo <= n <= cap hi (run p s))%nat) by lia.
    clear Hn. cbn [sem]. rewrite length_take by lia.
    repeat split; try lia.
    + apply all_chars_take_run. lia.
    + destruct hi as [h|]; unfold cap in Hk; [lia | exact I].
  - apply in_app_or in Hin. destruct Hin as [Hin | [Heq | []]].
    + destruct (IH _ _ _ _ Hin) as [w [-> Hw]]. exists w. simpl. auto.
    + injection Heq as <- <-. exists "". simpl. auto.
  - apply in_app_or in Hin. destruct Hin as [Hin | Hin].
    + destruct (IH1 _ _ _ _ Hin) as [w [-> Hw]]. exists w. simpl. auto.
    + destruct (IH2 _ _ _ _ Hin) as [w [-> Hw]]. exists w. simpl. auto.
  - apply in_flat_map in Hin. destruct Hin as [[s1 g1] [Hin1 Hin2]].
    destruct (IH1 _ _ _ _ Hin1) as [w1 [-> Hw1]].
    destruct (IH2 _ _ _ _ Hin2) as [w2 [-> Hw2]].
    exists (w1 ++ w2). split; [now rewrite append_assoc|].
    simpl. exists w1, w2, g1. auto.
  - apply in_map_iff in Hin. destruct Hin as [[s1 g1] [Heq Hin]].
    injection Heq as <- <-.
    destruct (IH _ _ _ _ Hin) as [w [-> Hw]].
    exists w. split; [reflexivity|].
    simpl. exists g1. split; [exact Hw|].
    rewrite length_append.
    replace (String.length w + String.length s1 - String.length s1)%nat
      with (String.length w) by lia.
    now rewrite take_append.
Qed.

(** The groups [re.search] reports come from a match of the pattern. *)
Lemma search_sound (r : regex) (s : string) (m : groups) :
  search r s = Some m -> exists w, sem r w no_groups m.
Proof.
  induction s as [|c s IH]; simpl.
  - destruct (match_at r "" no_groups) as [|[s' g'] rest] eqn:Hm;
      [discriminate|].
    intros Heq. injection Heq as <-.
    destruct (match_at_sound r "" no_groups s' g') as [w [_ Hw]]; eauto.
    rewrite Hm. now left.
  - destruct (match_at r (String c s) no_groups) as [|[s' g'] rest] eqn:Hm;
      [exact IH|].
    intros Heq. injection Heq as <-.
    destruct (match_at_sound r (String c s) no_groups s' g') as [w [_ Hw]];
      eauto.
    rewrite Hm. now left.
Qed.

End ReFacts.
Import ReFacts.

(** The matcher backtracks as [re] does: a greedy [\d{1,2}] gives a digit
    back when the colon does not follow, and the search moves on to the next
    position when a position has no match. *)
Example search_backtracks :
  match search (nth 0 time_patterns (Lit "")) "123:45" with
  | Some m => (m 1%nat, m 2%nat, m 3%nat)
  | None => (None, None, None)
  end = (Some "23", Some "45", None) /\
  match search (nth 1 time_patterns (Lit "")) "1 2am" with
  | Some m => (m 1%nat, m 2%nat)
  | None => (None, None)
  end = (Some "2", Some "am") /\
  match search (nth 0 time_patterns (Lit "")) "7:05   pm" with
  | Some m => (m 1%nat, m 2%nat, m 3%nat)
  | None => (None, None, None)
  end = (Some "7", Some "05", Some "pm").
Proof. repeat split; reflexivity. Qed.

(** ** The time extractor *)

Lemma decimal_char_cases (c : ascii) :
  is_decimal c = true ->
  In c ["0"; "1"; "2"; "3"; "4"; "5"; "6"; "7"; "8"; "9"]%char.
Proof.
  destruct c as [[] [] [] [] [] [] [] []]; vm_compute; intros H;
    try discriminate; auto 12.
Qed.

Lemma isdigit_decimal (w : string) :
  w <> "" -> all_chars is_decimal w = true -> isdigit w = true.
Proof.
  intros Hne Hall.
  assert (H : all_chars is_digit_char w = true).
  { clear Hne. induction w as [|c w IH]; simpl in *; auto.
    apply andb_true_iff in Hall. destruct Hall as [Hc Hw].
    rewrite IH by assumption. unfold is_digit_char. now rewrite Hc. }
  destruct w; [congruence | exact H].
Qed.

(** [int] of one or two decimal digits. *)
Lemma py_int_digits (w : string) :
  all_chars is_decimal w = true ->
  (1 <= String.length w <= 2)%nat ->
  exists n, py_int w = Some n /\ 0 <= n <= 99.
Proof.
  destruct w as [|c1 [|c2 [|c3 w]]]; simpl String.length; intros Hall Hlen;
    try lia.
  - simpl in Hall. rewrite andb_true_r in Hall.
    apply decimal_char_cases in Hall. simpl in Hall.
    repeat (destruct Hall as [<- | Hall];
            [eexists; split; [vm_compute; reflexivity | lia]|]).
    contradiction.
  - simpl in Hall. rewrite andb_true_r in Hall.
    apply andb_true_iff in Hall. destruct Hall as [H1 H2].
    apply decimal_char_cases in H1, H2. simpl in H1, H2.
    repeat (destruct H1 as [<- | H1];
            [repeat (destruct H2 as [<- | H2];
                     [eexists; split; [vm_compute; reflexivity | lia]|]);
             contradiction|]).
    contradiction.
Qed.

Ltac sem_inv :=
  repeat match goal with
  | H : exists _, _ |- _ => destruct H as [? H]
  | H : _ /\ _ |- _ => destruct H as [? H]
  | H : _ \/ _ |- _ => destruct H as [H | H]
  | H : True |- _ => clear H
  end; subst.

Ltac split_branches :=
  repeat match goal with
  | |- context [if ?b then _ else _] => destruct b
  | |- context [match ?o with Some _ => _ | None => _ end] => destruct o
  end.

Lemma group_text_some (m : groups) (i : nat) (w : string) :
  group_text m i = Some w -> m i = Some w.
Proof.
  unfold group_text. destruct (m i) as [[|c s]|]; congruence.
Qed.

(** When group 1 is an hour of one or two digits and group 2, where it
    reads as digits, is a minute below 100, the match gives a time. *)
Lemma time_of_match_bounds (pattern : regex) (m : groups) (w1 : string)
  (h : Z) :
  m 1%nat = Some w1 -> py_int w1 = Some h -> 0 <= h <= 99 ->
  (forall g2, group_text m 2 = Some g2 -> isdigit g2 = true ->
              exists mi, py_int g2 = Some mi /\ 0 <= mi <= 99) ->
  time_ok (time_of_match pattern m).
Proof.
  intros H1 Hh Hr H2. unfold time_of_match.
  rewrite H1. cbn [bind]. rewrite Hh. cbn [bind].
  assert (Hfin : forall mi, 0 <= mi <= 99 ->
    time_ok
      (ret (fmt02
              (if (2 <? ngroups pattern)%nat
               then match group_text m 3 with
                    | Some g3 =>
                        if (lower g3 =? "pm")%string && negb (h =? 12)
                        then h + 12
                        else if (lower g3 =? "am")%string && (h =? 12)
                             then 0 else h
                    | None => h
                    end
               else h) ++ ":" ++ fmt02 mi))).
  { intros mi Hmi. unfold time_ok. eexists _, mi.
    split; [reflexivity|]. split; [|exact Hmi].
    split_branches; lia. }
  destruct (1 <? ngroups pattern)%nat.
  - destruct (group_text m 2) as [g2|] eqn:E2.
    + destruct (isdigit g2) eqn:Ed.
      * destruct (H2 g2 eq_refl Ed) as [mi [-> Hmi]]. cbn [bind].
        now apply Hfin.
      * cbn [bind ret]. apply (Hfin 0). lia.
    + cbn [bind ret]. apply (Hfin 0). lia.
  - cbn [bind ret]. apply (Hfin 0). lia.
Qed.

Ltac solve_time_pattern Hw :=
  cbn [cat sem digits spaces0 spaces1 am_pm] in Hw; sem_inv;
  match goal with
  | H : all_chars is_decimal ?a = true,
    H1 : (1 <= String.length ?a)%nat |- _ =>
      let hh := fresh "hh" in
      let Hh := fresh "Hh" in
      let Hhr := fresh "Hhr" in
      destruct (py_int_digits a H ltac:(lia)) as [hh [Hh Hhr]];
      apply (time_of_match_bounds _ _ a hh);
      [reflexivity | exact Hh | exact Hhr |]
  end;
  let g2 := fresh "g2" in
  let Hg2 := fresh "Hg2" in
  let Hdig := fresh "Hdig" in
  intros g2 Hg2 Hdig; apply group_text_some in Hg2;
  unfold set_group, no_groups in Hg2; cbn [Nat.eqb] in Hg2;
  first
    [ discriminate Hg2
    | injection Hg2 as <-;
      first [ vm_compute in Hdig; discriminate Hdig
            | apply py_int_digits; [assumption | lia] ] ].

(** Whichever pattern matches, the match gives a time. *)
Lemma time_of_match_ok (pattern : regex) (text : string) (m : groups) :
  In pattern time_patterns -> search pattern text = Some m ->
  time_ok (time_of_match pattern m).
Proof.
  intros Hin Hs. apply search_sound in Hs. destruct Hs as [w Hw].
  unfold time_patterns in Hin. cbn [In] in Hin.
  repeat (destruct Hin as [<- | Hin]; [solve_time_pattern Hw|]).
  contradiction.
Qed.

Lemma first_time_match_ok (patterns : list regex) (text : string)
  (r : exc string) :
  (forall p, In p patterns -> In p time_patterns) ->
  first_time_match patterns text = Some r -> time_ok r.
Proof.
  induction patterns as [|p ps IH]; intros Hsub; cbn [first_time_match];
    [discriminate|].
  destruct (search p text) as [m|] eqn:Hs.
  - intros Heq. injection Heq as <-.
    apply (time_of_match_ok p text m); [apply Hsub; now left | exact Hs].
  - apply IH. intros q Hq. apply Hsub. now right.
Qed.

Lemma first_in_value {A} (table : list (string * A)) (text : string) (v : A) :
  first_in table text = Some v -> In v (map snd table).
Proof.
  induction table as [|[k x] rest IH]; simpl; [discriminate|].
  destruct (contains k text); [|auto].
  intros Heq. injection Heq as <-. auto.
Qed.

(** The time extractor never raises, and what it returns is a time. *)
Lemma extract_time_ok (text : string) : time_ok (extract_time_from_text text).
Proof.
  unfold extract_time_from_text.
  destruct (first_time_match time_patterns (lower text)) as [r|] eqn:Hm.
  - apply (first_time_match_ok time_patterns (lower text)); auto.
  - destruct (first_in named_times (lower text)) as [v|] eqn:Hn.
    + apply first_in_value in Hn. simpl in Hn. unfold time_ok.
      repeat (destruct Hn as [<- | Hn];
        [first [ exists 8, 0; split; [reflexivity | lia]
               | exists 14, 0; split; [reflexivity | lia]
               | exists 18, 0; split; [reflexivity | lia]
               | exists 20, 0; split; [reflexivity | lia]
               | exists 12, 0; split; [reflexivity | lia]
               | exists 0, 0; split; [reflexivity | lia]
               | exists 6, 0; split; [reflexivity | lia]
               | exists 19, 0; split; [reflexivity | lia] ]|]).
      contradiction.
    + exists 8, 0. split; [reflexivity | lia].
Qed.

Lemma in_Z_range (n : nat) (z : Z) :
  0 <= z < Z.of_nat n -> In z (map Z.of_nat (seq 0 n)).
Proof.
  intros Hz. apply in_map_iff. exists (Z.to_nat z). split; [lia|].
  apply in_seq. lia.
Qed.

(** What the predictor and [is_peak_hours] read back from a printed time. *)
Lemma printed_time_reads_back (h mi : Z) :
  0 <= h <= 111 -> 0 <= mi <= 99 ->
  time_minutes (fmt02 h ++ ":" ++ fmt02 mi) = Some (h * 60 + mi) /\
  py_int (hd EmptyString (split ":" (fmt02 h ++ ":" ++ fmt02 mi))) = Some h.
Proof.
  intros Hh Hmi.
  assert (Hall :
    forallb (fun h =>
      forallb (fun mi =>
        let t := fmt02 h ++ ":" ++ fmt02 mi in
        match time_minutes t, py_int (hd EmptyString (split ":" t)) with
        | Some tm, Some h' => (tm =? h * 60 + mi) && (h' =? h)
        | _, _ => false
        end) (map Z.of_nat (seq 0 100))) (map Z.of_nat (seq 0 112)) = true)
    by (vm_compute; reflexivity).
  rewrite forallb_forall in Hall.
  specialize (Hall h (in_Z_range 112 h ltac:(lia))).
  rewrite forallb_forall in Hall.
  specialize (Hall mi (in_Z_range 100 mi ltac:(lia))).
  cbv zeta in Hall.
  destruct (time_minutes (fmt02 h ++ ":" ++ fmt02 mi)) as [tm|];
    [|discriminate].
  destruct (py_int (hd "" (split ":" (fmt02 h ++ ":" ++ fmt02 mi))))
    as [h'|]; [|discriminate].
  apply andb_true_iff in Hall. destruct Hall as [H1 H2].
  apply Z.eqb_eq in H1, H2. subst. auto.
Qed.

(** Whatever the text, a match of the second pattern gives the hour as
    captured and minute 0: the am/pm marker it captured is not used. *)
Lemma hour_marker_family_keeps_hour (text : string) (m : groups) :
  search (nth 1 time_patterns (Lit "")) text = Some m ->
  exists g1 marker h,
    m 1%nat = Some g1 /\ m 2%nat = Some marker /\
    (marker = "am" \/ marker = "pm") /\
    py_int g1 = Some h /\
    time_of_match (nth 1 time_patterns (Lit "")) m
    = Some (fmt02 h ++ ":00").
Proof.
  intros Hs. apply search_sound in Hs. destruct Hs as [w Hw].
  cbn [nth time_patterns cat sem digits spaces0 am_pm] in Hw. sem_inv.
  all: match goal with
       | H : all_chars is_decimal ?a = true |- _ =>
           destruct (py_int_digits a H ltac:(lia)) as [h [Hh _]];
           eexists a, _, h; split; [reflexivity|]; split; [reflexivity|];
           split; [tauto|]; split; [exact Hh|];
           unfold time_of_match, group_text, set_group;
           cbn [Nat.eqb bind]; rewrite Hh; reflexivity
       end.
Qed.

(** C2: the family [H am|pm] (second pattern) does not get the 12-hour
    conversion the claim describes: "8 pm" gives 08:00 and "12 am" gives
    12:00. The pattern has two groups, so the test
    [len(match.groups()) > 2] that guards the conversion is false for it;
    the family [H:MM am|pm] (first pattern, three groups) is converted. *)
Theorem C2_hour_marker_not_converted :
  extract_time_from_text "8 pm" = Some "08:00" /\
  extract_time_from_text "at 11pm" = Some "11:00" /\
  extract_time_from_text "12 am" = Some "12:00" /\
  (2 <? ngroups (nth 1 time_patterns (Lit "")))%nat = false /\
  extract_time_from_text "8:00 pm" = Some "20:00" /\
  extract_time_from_text "12:00 am" = Some "00:00".
Proof. repeat split; vm_compute; reflexivity. Qed.

(** C3 (as amended): for every text the time extractor returns a time
    whose hour is in 0..111 and whose minute is in 0..99, and the predictor
    reads [time_minutes = hour*60+minute] from it, in [0, 6759]; the
    captured digits are not checked against the clock. *)
Theorem C3_time_minutes_bounds (text : string) :
  exists t hour minute,
    extract_time_from_text text = Some t /\
    t = fmt02 hour ++ ":" ++ fmt02 minute /\
    time_minutes t = Some (hour * 60 + minute) /\
    0 <= hour <= 111 /\ 0 <= minute <= 99 /\
    0 <= hour * 60 + minute <= 6759.
Proof.
  destruct (extract_time_ok text) as [h [mi [Ht [Hh Hmi]]]].
  exists (fmt02 h ++ ":" ++ fmt02 mi), h, mi.
  destruct (printed_time_reads_back h mi Hh Hmi) as [Htm _].
  repeat split; auto; lia.
Qed.

(** C3 (as stated) fails: "99:99 " gives 99:99, which is 6039 minutes;
    "at 23:99" gives 1479 and "13:00 pm" gives 25:00, 1500 minutes. *)
Lemma C3_time_minutes_out_of_day :
  (exists t tm, extract_time_from_text "99:99 " = Some t /\
                time_minutes t = Some tm /\ ~ (0 <= tm <= 1439)) /\
  (exists t tm, extract_time_from_text "at 23:99" = Some t /\
                time_minutes t = Some tm /\ ~ (0 <= tm <= 1439)) /\
  (exists t tm, extract_time_from_text "13:00 pm" = Some t /\
                time_minutes t = Some tm /\ ~ (0 <= tm <= 1439)).
Proof.
  split; [|split].
  - exists "99:99", 6039. repeat split; try reflexivity. lia.
  - exists "23:99", 1479. repeat split; try reflexivity. lia.
  - exists "25:00", 1500. repeat split; try reflexivity. lia.
Qed.

Example time_bounds_reached :
  extract_time_from_text "99:99pm" = Some "111:99" /\
  time_minutes "111:99" = Some 6759 /\
  extract_time_from_text "0:00" = Some "00:00" /\
  time_minutes "00:00" = Some 0.
Proof. repeat split; reflexivity. Qed.

Example time_no_match_defaults :
  extract_time_from_text "tomorrow evening" = Some "18:00" /\
  extract_time_from_text "good night, see you at noon" = Some "20:00" /\
  extract_time_from_text "when is it quiet?" = Some "08:00".
Proof. repeat split; reflexivity. Qed.

(** ** The structured query *)

Lemma plus_days_ok (d n : Z) :
  MINORDINAL <= d + n <= MAXORDINAL -> plus_days d n = Some (d + n).
Proof.
  intros H. unfold plus_days, in_range.
  destruct (Z.leb_spec MINORDINAL (d + n)); [|lia].
  destruct (Z.leb_spec (d + n) MAXORDINAL); [|lia].
  reflexivity.
Qed.

Ltac solve_date_pattern Hw :=
  cbn [cat sem digits] in Hw; sem_inv;
  unfold date_of_match, set_group; cbn [Nat.eqb bind]; eexists; reflexivity.

Lemma date_of_match_ok (index : nat) (pattern : regex) (text : string)
  (m : groups) :
  In pattern date_patterns -> search pattern text = Some m ->
  exists d, date_of_match index m = Some d.
Proof.
  intros Hin Hs. apply search_sound in Hs. destruct Hs as [w Hw].
  unfold date_patterns in Hin. cbn [In] in Hin.
  repeat (destruct Hin as [<- | Hin];
          [destruct index; solve_date_pattern Hw|]).
  contradiction.
Qed.

Lemma first_date_match_ok (patterns : list regex) :
  forall (index : nat) (text : string) (r : exc string),
    (forall p, In p patterns -> In p date_patterns) ->
    first_date_match index patterns text = Some r -> exists d, r = Some d.
Proof.
  induction patterns as [|p ps IH]; intros index text r Hsub;
    cbn [first_date_match]; [discriminate|].
  destruct (search p text) as [m|] eqn:Hs.
  - intros Heq. injection Heq as <-.
    apply (date_of_match_ok index p text m); [apply Hsub; now left | exact Hs].
  - apply IH. intros q Hq. apply Hsub. now right.
Qed.

Section ExtractionFacts.

Variable strftime_ymd : Z -> string.
Variable today : Z.

(** Tomorrow and yesterday are dates [datetime] can hold. *)
Hypothesis today_inside : MINORDINAL < today < MAXORDINAL.

Lemma extract_date_total (text : string) :
  exists d, extract_date_from_text strftime_ymd today text = Some d.
Proof.
  unfold extract_date_from_text.
  destruct (first_date_match 0 date_patterns (lower text)) as [r|] eqn:Hm.
  - apply (first_date_match_ok date_patterns 0 (lower text)); auto.
  - rewrite !plus_days_ok by lia. cbn [bind].
    split_branches; eexists; reflexivity.
Qed.

Lemma extract_day_total (text : string) :
  exists d, extract_day_from_text today text = Some d.
Proof.
  unfold extract_day_from_text.
  rewrite !plus_days_ok by lia. cbn [bind].
  split_branches; eexists; reflexivity.
Qed.

Lemma is_peak_hours_printed (h mi : Z) :
  0 <= h <= 111 -> 0 <= mi <= 99 ->
  is_peak_hours (fmt02 h ++ ":" ++ fmt02 mi) =
  Some (if (7 <=? h) && (h <=? 9) || (17 <=? h) && (h <=? 19)
        then "Yes" else "No").
Proof.
  intros Hh Hmi. unfold is_peak_hours.
  destruct (printed_time_reads_back h mi Hh Hmi) as [_ ->]. reflexivity.
Qed.

(** On a text prompt no extractor raises: the [try] block returns. *)
Lemma extract_fields_total (prompt : string) :
  exists q h mi,
    extract_fields strftime_ymd today prompt = Some q /\
    time q = fmt02 h ++ ":" ++ fmt02 mi /\
    0 <= h <= 111 /\ 0 <= mi <= 99 /\
    peak_hours q = (if (7 <=? h) && (h <=? 9) || (17 <=? h) && (h <=? 19)
                    then "Yes" else "No").
Proof.
  destruct (extract_date_total prompt) as [d Hd].
  destruct (extract_time_ok prompt) as [h [mi [Ht [Hh Hmi]]]].
  destruct (extract_day_total prompt) as [dy Hdy].
  unfold extract_fields.
  rewrite Hd, Ht, Hdy. cbn [bind].
  rewrite (is_peak_hours_printed h mi Hh Hmi). cbn [bind ret].
  eexists _, h, mi. split; [reflexivity|]. cbn [time peak_hours]. auto.
Qed.

End ExtractionFacts.

Lemma peak_flag_iff (h : Z) :
  (if (7 <=? h) && (h <=? 9) || (17 <=? h) && (h <=? 19)
   then "Yes" else "No") = "Yes" <-> In h peak_hour_set.
Proof.
  unfold peak_hour_set. cbn [In].
  destruct ((7 <=? h) && (h <=? 9) || (17 <=? h) && (h <=? 19)) eqn:E.
  - split; [intros _ | reflexivity].
    apply orb_true_iff in E. rewrite !andb_true_iff, !Z.leb_le in E. lia.
  - split; [discriminate|]. intros H.
    apply orb_false_iff in E. rewrite !andb_false_iff, !Z.leb_gt in E. lia.
Qed.

(** The safe defaults pair 08:00 with "No". *)
Lemma safe_defaults_peak_mismatch (strftime_ymd : Z -> string) (today : Z) :
  ~ peak_consistent (safe_defaults strftime_ymd today).
Proof.
  intros [hour [Hhour [_ Hyes]]].
  vm_compute in Hhour. injection Hhour as <-.
  assert (H : peak_hours (safe_defaults strftime_ymd today) = "Yes")
    by (apply Hyes; unfold peak_hour_set; simpl; tauto).
  discriminate H.
Qed.

(** C4 (as amended): while tomorrow and yesterday exist for the server's
    calendar, no extractor raises on any prompt, so the structured query
    comes from the normal path, and there [peak_hours] is Yes if and only
    if the hour of [time] is one of 7, 8, 9, 17, 18, 19. *)
Theorem C4_peak_hours_on_normal_path (strftime_ymd : Z -> string)
  (today : Z) (prompt : string) :
  MINORDINAL < today < MAXORDINAL ->
  extract_fields strftime_ymd today prompt
  = Some (extract_structured_data strftime_ymd today prompt) /\
  peak_consistent (extract_structured_data strftime_ymd today prompt).
Proof.
  intros Hday.
  destruct (extract_fields_total strftime_ymd today Hday prompt)
    as [q [h [mi [Hq [Ht [Hh [Hmi Hp]]]]]]].
  unfold extract_structured_data. rewrite Hq. cbn [try_except].
  split; [reflexivity|].
  exists h. split.
  - unfold hour_of. rewrite Ht.
    now destruct (printed_time_reads_back h mi Hh Hmi).
  - rewrite Hp. apply peak_flag_iff.
Qed.

Lemma C4_peak_hours_witness :
  MINORDINAL < 739610 < MAXORDINAL /\
  peak_consistent
    (extract_structured_data (fun _ => "2025-12-25") 739610
                             "How busy is it at 5:30 pm?").
Proof.
  assert (H : MINORDINAL < 739610 < MAXORDINAL)
    by (unfold MINORDINAL, MAXORDINAL; lia).
  split; [exact H|].
  exact (proj2 (C4_peak_hours_on_normal_path
                  (fun _ => "2025-12-25") 739610
                  "How busy is it at 5:30 pm?" H)).
Defined.

(** C4 (as stated) fails on the error-default branch: on the last day of
    the calendar "tomorrow" overflows, the handler answers, and its query
    has time 08:00 with peak_hours No. *)
Lemma C4_error_defaults_break_peak_rule :
  extract_fields (fun _ => "9999-12-31") MAXORDINAL "tomorrow" = None /\
  time (extract_structured_data (fun _ => "9999-12-31") MAXORDINAL
                                "tomorrow") = "08:00" /\
  peak_hours (extract_structured_data (fun _ => "9999-12-31") MAXORDINAL
                                      "tomorrow") = "No" /\
  ~ peak_consistent
      (extract_structured_data (fun _ => "9999-12-31") MAXORDINAL "tomorrow").
Proof.
  repeat split; try reflexivity.
  change (extract_structured_data (fun _ => "9999-12-31") MAXORDINAL
                                  "tomorrow")
    with (safe_defaults (fun _ => "9999-12-31") MAXORDINAL).
  apply safe_defaults_peak_mismatch.
Qed.

Lemma is_weekend_iff (d : string) :
  is_weekend d = "Yes" <-> (d = "Saturday" \/ d = "Sunday").
Proof.
  unfold is_weekend. cbn [existsb].
  destruct (String.eqb_spec d "Saturday") as [-> | H1]; [simpl; tauto|].
  destruct (String.eqb_spec d "Sunday") as [-> | H2]; [simpl; tauto|].
  simpl. split; [discriminate | tauto].
Qed.

Lemma weekday_cases (d : Z) :
  In (weekday d) [0; 1; 2; 3; 4; 5; 6].
Proof.
  unfold weekday. pose proof (Z.mod_pos_bound (d + 6) 7 ltac:(lia)) as H.
  cbn [In]. lia.
Qed.

(** The handler computes the weekend flag from the same day it names. *)
Lemma safe_defaults_weekend (strftime_ymd : Z -> string) (today : Z) :
  weekend_consistent (safe_defaults strftime_ymd today).
Proof.
  unfold weekend_consistent, safe_defaults, strftime_A. cbn [weekends day].
  pose proof (weekday_cases today) as H. cbn [In] in H.
  repeat (destruct H as [<- | H];
          [vm_compute; split;
           [intros E; try discriminate E; tauto
           | intros [E | E]; try discriminate E; reflexivity]|]).
  contradiction.
Qed.

Lemma extract_fields_weekends (strftime_ymd : Z -> string) (today : Z)
  (prompt : string) (q : StructuredQuery) :
  extract_fields strftime_ymd today prompt = Some q ->
  weekends q = is_weekend (day q).
Proof.
  unfold extract_fields, bind, ret.
  destruct (extract_date_from_text strftime_ymd today prompt); [|discriminate].
  destruct (extract_time_from_text prompt) as [t|]; [|discriminate].
  destruct (extract_day_from_text today prompt); [|discriminate].
  destruct (is_peak_hours t); [|discriminate].
  intros Heq. injection Heq as <-. reflexivity.
Qed.

(** C8: whatever the prompt and the date, the structured query has
    weekends = Yes if and only if its day is Saturday or Sunday, on the
    normal path and in the error defaults; [is_weekend] says Yes for
    Saturday and Sunday only. *)
Theorem C8_weekends_iff_saturday_or_sunday :
  (forall (strftime_ymd : Z -> string) (today : Z) (prompt : string),
      weekend_consistent (extract_structured_data strftime_ymd today prompt)
      /\ weekend_consistent (safe_defaults strftime_ymd today)) /\
  (forall d : string,
      is_weekend d = "Yes" <-> (d = "Saturday" \/ d = "Sunday")) /\
  map is_weekend day_names = ["No"; "No"; "No"; "No"; "No"; "Yes"; "Yes"].
Proof.
  split; [|split; [exact is_weekend_iff | reflexivity]].
  intros strftime_ymd today prompt.
  split; [|apply safe_defaults_weekend].
  unfold extract_structured_data, try_except.
  destruct (extract_fields strftime_ymd today prompt) as [q|] eqn:Hq.
  - unfold weekend_consistent.
    rewrite (extract_fields_weekends _ _ _ _ Hq). apply is_weekend_iff.
  - apply safe_defaults_weekend.
Qed.

Example weekend_on_both_paths :
  (* Saturday 2025-12-27, normal path *)
  weekends (extract_structured_data (fun _ => "2025-12-27") 739612
                                    "how crowded is it now?") = "Yes" /\
  day (extract_structured_data (fun _ => "2025-12-27") 739612
                               "how crowded is it now?") = "Saturday" /\
  (* the last day of the calendar is a Friday; the handler answers *)
  day (extract_structured_data (fun _ => "9999-12-31") MAXORDINAL
                               "kesho") = "Friday" /\
  weekends (extract_structured_data (fun _ => "9999-12-31") MAXORDINAL
                                    "kesho") = "No".
Proof. repeat split; reflexivity. Qed.

(** ** Stripping the prompt keeps the phrases in it *)













(** ** The intent dispatch *)

Section EndpointFacts.

Variable strftime_ymd : Z -> string.
Variable today : Z.
Variable to_ordinal : string -> exc Z.
Variable encoders : Encoders.
Variable model_predict : DataFrame -> exc Z.




End EndpointFacts.



Example intents_in_order :
  map (fun text =>
         message_type_of
           (predict_from_prompt (fun _ => "2025-12-25") 739610
              demo_to_ordinal resaved_encoders demo_model (Some text)))
      ["hello"; "this bus at 8 am"; "great, and at 9 pm?";
       "how many passengers at 8 am?"; "ok"; "   "]
  = [Some "greeting"; Some "greeting"; Some "thank_you";
     Some "prediction"; Some "fallback"; None].
Proof. reflexivity. Qed.

(** ** The scenarios of the specification *)

(** C6: on "How many passengers on Monday at 8 AM?" the extraction gives
    day Monday, time 08:00, peak hours Yes, weekends No and the default
    weather Sunny; the text is a prediction request (and is answered as
    one) and its language is English. This holds whatever the date of the
    server and whatever the collaborators are. *)
Theorem C6_monday_8am_scenario
  (strftime_ymd : Z -> string) (today : Z) (to_ordinal : string -> exc Z)
  (encoders : Encoders) (model_predict : DataFrame -> exc Z) :
  let prompt := "How many passengers on Monday at 8 AM?" in
  let q := extract_structured_data strftime_ymd today prompt in
  day q = "Monday" /\ time q = "08:00" /\ peak_hours q = "Yes" /\
  weekends q = "No" /\ weather q = "Sunny" /\
  extract_time_from_text prompt = Some "08:00" /\
  is_prediction_request prompt = true /\
  message_type_of
    (predict_from_prompt strftime_ymd today to_ordinal encoders
                         model_predict (Some prompt)) = Some "prediction" /\
  detect_language prompt = "English".
Proof. cbv zeta. repeat split; vm_compute; reflexivity. Qed.

Lemma is_holiday_iff (text : string) :
  is_holiday_from_text text = "Yes" <->
  exists k, In k holiday_keywords /\ contains k (lower text) = true.
Proof.
  unfold is_holiday_from_text. rewrite <- any_in_spec.
  destruct (any_in holiday_keywords (lower text)).
  - tauto.
  - split; discriminate.
Qed.

(** C9: on "2025-12-25, will it be busy?" the date extractor returns
    2025-12-25 and the holiday extractor No; the holiday flag is Yes
    exactly when one of the five keywords occurs in the lower-cased text,
    and the extracted date has no part in it; the text is a prediction
    request and is answered as one. *)
Theorem C9_christmas_date_scenario
  (strftime_ymd : Z -> string) (today : Z) (to_ordinal : string -> exc Z)
  (encoders : Encoders) (model_predict : DataFrame -> exc Z) :
  let prompt := "2025-12-25, will it be busy?" in
  extract_date_from_text strftime_ymd today prompt = Some "2025-12-25" /\
  is_holiday_from_text prompt = "No" /\
  holidays (extract_structured_data strftime_ymd today prompt) = "No" /\
  date (extract_structured_data strftime_ymd today prompt) = "2025-12-25" /\
  holiday_keywords
  = ["holiday"; "christmas"; "new year"; "easter"; "sikukuu"] /\
  (forall text,
      is_holiday_from_text text = "Yes" <->
      exists k, In k holiday_keywords /\ contains k (lower text) = true) /\
  is_prediction_request prompt = true /\
  message_type_of
    (predict_from_prompt strftime_ymd today to_ordinal encoders
                         model_predict (Some prompt)) = Some "prediction".
Proof.
  cbv zeta.
  repeat split; try (vm_compute; reflexivity); apply is_holiday_iff.
Qed.

Example holiday_flag_ignores_the_date :
  is_holiday_from_text "2025-12-25 at 8 am" = "No" /\
  is_holiday_from_text "Christmas rush on 2025-03-02?" = "Yes" /\
  is_holiday_from_text "is it busy on the HOLIDAY?" = "Yes".
Proof. repeat split; reflexivity. Qed.

(** ** The prediction contract *)

Section PredictionFacts.

Variable to_ordinal : string -> exc Z.
Variable encoders : Encoders.
Variable model_predict : DataFrame -> exc Z.

(** The frame, when there is one, is the seven codes in training order. *)
Lemma input_data_inv (sd : StructuredQuery) (frame : DataFrame) :
  input_data to_ordinal encoders sd = Some frame ->
  exists day_code weather_code minutes peak_code weekends_code
         holidays_code date_ordinal,
    transform (day_encoder encoders) (day sd) = Some day_code /\
    transform (weather_encoder encoders) (weather sd) = Some weather_code /\
    time_minutes (time sd) = Some minutes /\
    transform (peak_hours_encoder encoders) (peak_hours sd)
    = Some peak_code /\
    transform (weekends_encoder encoders) (weekends sd)
    = Some weekends_code /\
    transform (holidays_encoder encoders) (holidays sd)
    = Some holidays_code /\
    to_ordinal (date sd) = Some date_ordinal /\
    frame = [("day", day_code); ("weather", weather_code);
             ("time_value", minutes); ("peak_hours", peak_code);
             ("weekends", weekends_code); ("holidays", holidays_code);
             ("date_ordinal", date_ordinal)].
Proof.
  unfold input_data, bind.
  destruct (to_ordinal (date sd)) as [o|]; [|discriminate].
  destruct (time_minutes (time sd)) as [t|]; [|discriminate].
  destruct (transform (day_encoder encoders) (day sd)) as [d|];
    [|discriminate].
  destruct (transform (weather_encoder encoders) (weather sd)) as [w|];
    [|discriminate].
  destruct (transform (peak_hours_encoder encoders) (peak_hours sd))
    as [p|]; [|discriminate].
  destruct (transform (weekends_encoder encoders) (weekends sd)) as [we|];
    [|discriminate].
  destruct (transform (holidays_encoder encoders) (holidays sd)) as [h|];
    [|discriminate].
  cbn. intros Heq. injection Heq as <-.
  exists d, w, t, p, we, h, o. repeat split; reflexivity.
Qed.

Lemma predict_passengers_no_frame (sd : StructuredQuery) :
  input_data to_ordinal encoders sd = None ->
  predict_passengers to_ordinal encoders model_predict sd = 43.
Proof. intros H. unfold predict_passengers. now rewrite H. Qed.

Lemma encoding_raises_no_frame (sd : StructuredQuery) :
  encoding_raises to_ordinal encoders sd ->
  input_data to_ordinal encoders sd = None.
Proof.
  intros H.
  destruct (input_data to_ordinal encoders sd) as [frame|] eqn:E;
    [|reflexivity].
  apply input_data_inv in E.
  destruct E as (d & w & t & p & we & h & o & Hd & Hw & Ht & Hp & Hwe & Hh
                 & Ho & _).
  unfold encoding_raises in H.
  repeat (destruct H as [H | H]; [congruence|]). congruence.
Qed.

End PredictionFacts.

(** C1: whenever [predict_passengers] reaches the model, the frame it
    hands over has exactly the seven columns day, weather, time_value,
    peak_hours, weekends, holidays, date_ordinal in this order, each
    holding the code of the query's own field; the prediction is what the
    model answers on that frame. *)
Theorem C1_feature_vector_order
  (to_ordinal : string -> exc Z) (encoders : Encoders)
  (model_predict : DataFrame -> exc Z) (sd : StructuredQuery)
  (frame : DataFrame) :
  input_data to_ordinal encoders sd = Some frame ->
  map fst frame = training_feature_order /\
  map Some (map snd frame)
  = [transform (day_encoder encoders) (day sd);
     transform (weather_encoder encoders) (weather sd);
     time_minutes (time sd);
     transform (peak_hours_encoder encoders) (peak_hours sd);
     transform (weekends_encoder encoders) (weekends sd);
     transform (holidays_encoder encoders) (holidays sd);
     to_ordinal (date sd)] /\
  predict_passengers to_ordinal encoders model_predict sd
  = try_except (model_predict frame) 43.
Proof.
  intros Hframe.
  destruct (input_data_inv to_ordinal encoders sd frame Hframe)
    as (d & w & t & p & we & h & o & Hd & Hw & Ht & Hp & Hwe & Hh & Ho & ->).
  split; [reflexivity|]. split.
  - cbn [map snd]. now rewrite Hd, Hw, Ht, Hp, Hwe, Hh, Ho.
  - unfold predict_passengers. rewrite Hframe. reflexivity.
Qed.

Lemma C1_feature_vector_witness :
  input_data demo_to_ordinal resaved_encoders demo_query
  = Some [("day", 4); ("weather", 1); ("time_value", 1050);
          ("peak_hours", 1); ("weekends", 0); ("holidays", 0);
          ("date_ordinal", 739610)] /\
  predict_passengers demo_to_ordinal resaved_encoders demo_model demo_query
  = 50.
Proof.
  split; [reflexivity|].
  exact (proj2 (proj2 (C1_feature_vector_order
                         demo_to_ordinal resaved_encoders demo_model
                         demo_query _ eq_refl))).
Defined.

(** C7: if the date, the time or any of the five encoders raises on the
    structured data, or the model raises on the frame, then
    [predict_passengers] returns the fallback 43; being a function into the
    integers it passes no exception on. *)
Theorem C7_fallback_prediction
  (to_ordinal : string -> exc Z) (encoders : Encoders)
  (model_predict : DataFrame -> exc Z) (sd : StructuredQuery) :
  encoding_raises to_ordinal encoders sd \/
  (exists frame, input_data to_ordinal encoders sd = Some frame /\
                 model_predict frame = None) ->
  predict_passengers to_ordinal encoders model_predict sd = 43.
Proof.
  intros [H | [frame [Hframe Hmodel]]].
  - apply predict_passengers_no_frame.
    now apply encoding_raises_no_frame.
  - unfold predict_passengers. rewrite Hframe. cbn [bind].
    now rewrite Hmodel.
Qed.

Lemma C7_fallback_prediction_witness :
  transform (weather_encoder resaved_encoders) (weather foggy_query) = None /\
  predict_passengers demo_to_ordinal resaved_encoders demo_model foggy_query
  = 43 /\
  predict_passengers demo_to_ordinal resaved_encoders (fun _ => None)
                     demo_query = 43.
Proof.
  split; [reflexivity|]. split.
  - apply (C7_fallback_prediction demo_to_ordinal resaved_encoders
             demo_model foggy_query).
    left. unfold encoding_raises. do 3 right. left. reflexivity.
  - apply (C7_fallback_prediction demo_to_ordinal resaved_encoders
             (fun _ => None) demo_query).
    right. eexists. split; reflexivity.
Defined.

Example fallback_on_other_failures :
  (* a time without a colon, a time that is not a number, an unknown date *)
  map (predict_passengers demo_to_ordinal resaved_encoders demo_model)
      [ {| date := "2025-12-25"; time := "1730"; day := "Thursday";
           weather := "Rainy"; peak_hours := "Yes"; weekends := "No";
           holidays := "No" |};
        {| date := "2025-12-25"; time := "5:pm"; day := "Thursday";
           weather := "Rainy"; peak_hours := "Yes"; weekends := "No";
           holidays := "No" |};
        {| date := "someday"; time := "17:30"; day := "Thursday";
           weather := "Rainy"; peak_hours := "Yes"; weekends := "No";
           holidays := "No" |};
        {| date := "2025-12-25"; time := "17:30"; day := "thursday";
           weather := "Rainy"; peak_hours := "Yes"; weekends := "No";
           holidays := "No" |} ]
  = [43; 43; 43; 43].
Proof. reflexivity. Qed.

(** * Further properties of the code *)

(** ** What the extraction hands to the encoders *)

Lemma strftime_A_in (d : Z) : In (strftime_A d) day_names.
Proof.
  unfold strftime_A. pose proof (weekday_cases d) as H. cbn [In] in H.
  repeat (destruct H as [<- | H]; [vm_compute; tauto|]). contradiction.
Qed.

Lemma extract_day_in (today : Z) (text d : string) :
  extract_day_from_text today text = Some d -> In d day_names.
Proof.
  unfold extract_day_from_text.
  destruct (first_in english_days (lower text)) as [e|] eqn:He.
  { intros Heq. injection Heq as <-. apply first_in_value in He.
    cbn in He. unfold day_names. cbn. tauto. }
  destruct (first_in swahili_days (lower text)) as [e|] eqn:Hs.
  { intros Heq. injection Heq as <-. apply first_in_value in Hs.
    cbn in Hs. unfold day_names. cbn. tauto. }
  unfold bind, ret.
  destruct (plus_days today 1); destruct (plus_days today (-1));
    split_branches; intros Heq; try discriminate Heq;
    injection Heq as <-; apply strftime_A_in.
Qed.

Lemma extract_weather_in (text : string) :
  In (extract_weather_from_text text) ["Sunny"; "Rainy"; "Cloudy"].
Proof.
  unfold extract_weather_from_text.
  destruct (first_in weather_keywords (lower text)) as [w|] eqn:Hw.
  - apply first_in_value in Hw. cbn in Hw. cbn. tauto.
  - cbn. tauto.
Qed.

(** What a query of the normal path is made of. *)
Lemma extract_fields_inv (strftime_ymd : Z -> string) (today : Z)
  (prompt : string) (q : StructuredQuery) :
  extract_fields strftime_ymd today prompt = Some q ->
  extract_date_from_text strftime_ymd today prompt = Some (date q) /\
  extract_time_from_text prompt = Some (time q) /\
  extract_day_from_text today prompt = Some (day q) /\
  weather q = extract_weather_from_text prompt /\
  is_peak_hours (time q) = Some (peak_hours q) /\
  weekends q = is_weekend (day q) /\
  holidays q = is_holiday_from_text prompt.
Proof.
  unfold extract_fields, bind, ret.
  destruct (extract_date_from_text strftime_ymd today prompt); [|discriminate].
  destruct (extract_time_from_text prompt) as [t|]; [|discriminate].
  destruct (extract_day_from_text today prompt); [|discriminate].
  destruct (is_peak_hours t) eqn:Hp; [|discriminate].
  intros Heq. injection Heq as <-. cbn. rewrite Hp. repeat split.
Qed.

Lemma yes_no_flag (b : bool) : In (if b then "Yes" else "No") ["No"; "Yes"].
Proof. destruct b; cbn; tauto. Qed.

Lemma extract_fields_in_vocabulary (strftime_ymd : Z -> string) (today : Z)
  (prompt : string) (q : StructuredQuery) :
  extract_fields strftime_ymd today prompt = Some q ->
  in_vocabulary q /\ exists m, time_minutes (time q) = Some m.
Proof.
  intros Hq. apply extract_fields_inv in Hq.
  destruct Hq as (_ & Ht & Hd & Hw & Hp & Hwe & Hh).
  split.
  - unfold in_vocabulary. repeat split.
    + apply (extract_day_in today prompt). exact Hd.
    + rewrite Hw. apply extract_weather_in.
    + unfold is_peak_hours, bind, ret in Hp.
      destruct (py_int (hd "" (split ":" (time q)))); [|discriminate].
      injection Hp as <-. apply yes_no_flag.
    + rewrite Hwe. apply yes_no_flag.
    + rewrite Hh. apply yes_no_flag.
  - destruct (extract_time_ok prompt) as [h [mi [Ht' [Hh' Hmi]]]].
    rewrite Ht in Ht'. injection Ht' as ->.
    exists (h * 60 + mi). now destruct (printed_time_reads_back h mi Hh' Hmi).
Qed.

Lemma safe_defaults_in_vocabulary (strftime_ymd : Z -> string) (today : Z) :
  in_vocabulary (safe_defaults strftime_ymd today) /\
  exists m, time_minutes (time (safe_defaults strftime_ymd today)) = Some m.
Proof.
  split.
  - unfold in_vocabulary, safe_defaults. cbn [day weather peak_hours weekends
                                               holidays].
    repeat split; try (cbn; tauto).
    + apply strftime_A_in.
    + apply yes_no_flag.
  - exists 480. reflexivity.
Qed.

Lemma in_vocabulary_encodes (q : StructuredQuery) :
  in_vocabulary q ->
  (exists c, transform (day_encoder resaved_encoders) (day q) = Some c) /\
  (exists c, transform (weather_encoder resaved_encoders) (weather q)
             = Some c) /\
  (exists c, transform (peak_hours_encoder resaved_encoders) (peak_hours q)
             = Some c) /\
  (exists c, transform (weekends_encoder resaved_encoders) (weekends q)
             = Some c) /\
  (exists c, transform (holidays_encoder resaved_encoders) (holidays q)
             = Some c).
Proof.
  intros (Hd & Hw & Hp & Hwe & Hh).
  unfold day_names in Hd. cbn [In] in Hd, Hw, Hp, Hwe, Hh.
  repeat split.
  - repeat (destruct Hd as [<- | Hd]; [eexists; vm_compute; reflexivity|]).
    contradiction.
  - repeat (destruct Hw as [<- | Hw]; [eexists; vm_compute; reflexivity|]).
    contradiction.
  - repeat (destruct Hp as [<- | Hp]; [eexists; vm_compute; reflexivity|]).
    contradiction.
  - repeat (destruct Hwe as [<- | Hwe]; [eexists; vm_compute; reflexivity|]).
    contradiction.
  - repeat (destruct Hh as [<- | Hh]; [eexists; vm_compute; reflexivity|]).
    contradiction.
Qed.

(** X1: whatever the prompt and the date of the server, the structured
    query of [extract_structured_data] (normal path or safe defaults) holds
    only labels the encoders of resave_encoders.py know and a time the
    predictor can read; with those encoders the one step of
    [predict_passengers] that can raise before the model is the parsing of
    the date. *)
Theorem X1_extracted_query_always_encodes
  (strftime_ymd : Z -> string) (today : Z) (prompt : string)
  (to_ordinal : string -> exc Z) :
  let q := extract_structured_data strftime_ymd today prompt in
  in_vocabulary q /\
  (exists m, time_minutes (time q) = Some m) /\
  (encoding_raises to_ordinal resaved_encoders q <->
   to_ordinal (date q) = None).
Proof.
  cbv zeta.
  assert (H : in_vocabulary
                (extract_structured_data strftime_ymd today prompt) /\
              exists m, time_minutes
                          (time (extract_structured_data strftime_ymd today
                                                         prompt)) = Some m).
  { unfold extract_structured_data, try_except.
    destruct (extract_fields strftime_ymd today prompt) as [q|] eqn:Hq.
    - apply (extract_fields_in_vocabulary strftime_ymd today prompt q Hq).
    - apply safe_defaults_in_vocabulary. }
  destruct H as [Hv [m Hm]]. split; [exact Hv|]. split; [eauto|].
  destruct (in_vocabulary_encodes _ Hv)
    as ([c1 H1] & [c2 H2] & [c3 H3] & [c4 H4] & [c5 H5]).
  unfold encoding_raises. split; [|tauto].
  intros H. repeat (destruct H as [H | H]; try congruence).
Qed.

(** ** The date extractor *)

Lemma zfill2_shape (w : string) :
  all_chars is_decimal w = true -> (1 <= String.length w)%nat ->
  (String.length w <= 2)%nat ->
  all_chars is_decimal (zfill2 w) = true /\ String.length (zfill2 w) = 2%nat.
Proof.
  destruct w as [|a [|b [|c w]]]; cbn [String.length]; intros H H1 H2;
    try lia.
  - cbn [zfill2]. split; [|reflexivity].
    cbn [all_chars] in *. now rewrite H.
  - cbn [zfill2]. auto.
Qed.

Ltac shape_date Hs :=
  apply search_sound in Hs; destruct Hs as [? Hs];
  cbn [cat sem digits] in Hs; sem_inv;
  unfold date_of_match, set_group; cbn [Nat.eqb bind ret];
  eexists; split; [reflexivity|];
  repeat match goal with
         | H : all_chars is_decimal ?a = true,
           H1 : (1 <= String.length ?a)%nat,
           H2 : (String.length ?a <= 2)%nat |- _ =>
             pose proof (zfill2_shape a H H1 H2); clear H1
         end;
  unfold date_shaped; do 3 eexists; split; [reflexivity|];
  repeat split; try tauto; try lia.

Ltac case_search m Hm :=
  match goal with
  | |- context [search ?p ?t] => destruct (search p t) as [m|] eqn:Hm
  end.

Lemma first_date_match_shaped (text : string) (r : exc string) :
  first_date_match 0 date_patterns text = Some r ->
  exists d, r = Some d /\ date_shaped d.
Proof.
  unfold date_patterns. cbn [first_date_match].
  case_search m1 H1.
  - intros Heq. assert (Hr : r = date_of_match 0 m1) by congruence.
    rewrite Hr. clear Heq Hr. shape_date H1.
  - clear H1. case_search m2 H2.
    + intros Heq. assert (Hr : r = date_of_match 1 m2) by congruence.
      rewrite Hr. clear Heq Hr. shape_date H2.
    + clear H2. case_search m3 H3; [|discriminate].
      intros Heq. assert (Hr : r = date_of_match 2 m3) by congruence.
      rewrite Hr. clear Heq Hr. shape_date H3.
Qed.

(** X2: when one of the three date patterns matches, the date extractor
    answers with a date of the shape DDDD-DD-DD (month and day padded to
    two digits), whatever the date of the server; month and day are not
    checked to be real ones. *)
Theorem X2_matched_date_is_normalised
  (strftime_ymd : Z -> string) (today : Z) (text : string) :
  first_date_match 0 date_patterns (lower text) <> None ->
  exists d, extract_date_from_text strftime_ymd today text = Some d /\
            date_shaped d.
Proof.
  intros H. unfold extract_date_from_text.
  destruct (first_date_match 0 date_patterns (lower text)) as [r|] eqn:Hm;
    [|congruence].
  destruct (first_date_match_shaped _ _ Hm) as [d [-> Hd]]. eauto.
Qed.

Lemma X2_matched_date_witness :
  exists d, extract_date_from_text (fun _ => "2025-12-25") 739610
                                   "Is 3/7/2026 a busy day?" = Some d /\
            date_shaped d.
Proof.
  apply (X2_matched_date_is_normalised (fun _ => "2025-12-25") 739610
           "Is 3/7/2026 a busy day?").
  vm_compute. discriminate.
Defined.

Example dates_are_not_validated :
  map (extract_date_from_text (fun _ => "2025-12-25") 739610)
      ["Is 3/7/2026 a busy day?"; "on 2025-99-0"; "25-12-2025";
       "ticket 12345-1-2"]
  = [Some "2026-03-07"; Some "2025-99-00"; Some "2025-25-12";
     Some "2345-01-02"].
Proof. reflexivity. Qed.

(** ** The day extractor *)

Lemma first_in_none {A} (table : list (string * A)) (text : string) :
  any_in (map fst table) text = false -> first_in table text = None.
Proof.
  unfold any_in. induction table as [|[k v] rest IH]; cbn [map fst existsb first_in];
    [reflexivity|].
  destruct (contains k text); [discriminate | exact IH].
Qed.

(** The entry [first_in] answers with: the first one whose key the text
    contains. *)
Lemma first_in_first {A} (table : list (string * A)) (text : string) :
  any_in (map fst table) text = true ->
  exists key v before after,
    table = (before ++ (key, v) :: after)%list /\
    contains key text = true /\
    any_in (map fst before) text = false /\
    first_in table text = Some v.
Proof.
  unfold any_in.
  induction table as [|[k x] rest IH]; cbn [map fst existsb first_in];
    [discriminate|].
  destruct (contains k text) eqn:Hk.
  - intros _. exists k, x, [], rest. auto.
  - cbn [orb]. intros H. destruct (IH H) as (key & v & before & after & IH').
    destruct IH' as (-> & Hc & Hb & Hf).
    exists key, v, ((k, x) :: before), after.
    cbn [map fst existsb app]. rewrite Hk, Hb. auto.
Qed.

(** The days are looked up in the English table and then in the Swahili
    one, which is looking them up in the two tables put end to end. *)
Lemma extract_day_named (today : Z) (text d : string) :
  first_in (english_days ++ swahili_days) (lower text) = Some d ->
  extract_day_from_text today text = Some d.
Proof.
  unfold extract_day_from_text.
  assert (Happ : forall (t1 t2 : list (string * string)) w,
             first_in (t1 ++ t2) w
             = match first_in t1 w with
               | Some v => Some v
               | None => first_in t2 w
               end).
  { induction t1 as [|[k x] t1 IH]; intros t2 w; cbn [app first_in];
      [reflexivity|].
    destruct (contains k w); [reflexivity | apply IH]. }
  rewrite Happ.
  destruct (first_in english_days (lower text)); [auto|].
  intros ->. reflexivity.
Qed.

(** X3: when a day name of the English table (monday .. sunday) or of the
    Swahili one (jumatatu .. jumapili) occurs in the lower-cased text, the
    day [extract_day_from_text] gives is the day of the first entry, in
    the order of the two tables, whose name occurs, and it is the same
    whatever the date of the server, also on the first and the last day of
    the calendar and also when the text says today, tomorrow or yesterday
    as well. So a text whose day names all stand for one day gets that
    day. *)
Theorem X3_named_day_beats_the_calendar (text : string) :
  any_in (map fst english_days ++ map fst swahili_days) (lower text) = true ->
  (exists name d before after,
     (english_days ++ swahili_days = before ++ (name, d) :: after)%list /\
     contains name (lower text) = true /\
     any_in (map fst before) (lower text) = false /\
     forall today, extract_day_from_text today text = Some d) /\
  (forall d,
     (forall name' d', In (name', d') (english_days ++ swahili_days) ->
                       contains name' (lower text) = true -> d' = d) ->
     forall today, extract_day_from_text today text = Some d).
Proof.
  intros H. rewrite <- map_app in H.
  destruct (first_in_first _ _ H)
    as (name & d & before & after & Ht & Hc & Hb & Hf).
  split.
  - exists name, d, before, after. repeat split; auto.
    intros today. now apply extract_day_named.
  - intros d0 Hone today. apply extract_day_named. rewrite Hf. f_equal.
    apply (Hone name d); [|exact Hc].
    rewrite Ht. apply in_or_app. right. now left.
Qed.

Lemma X3_named_day_witness :
  (exists name d before after,
     (english_days ++ swahili_days = before ++ (name, d) :: after)%list /\
     contains name (lower "Kesho ni Jumamosi?") = true /\
     any_in (map fst before) (lower "Kesho ni Jumamosi?") = false /\
     forall today,
       extract_day_from_text today "Kesho ni Jumamosi?" = Some d) /\
  (forall d,
     (forall name' d', In (name', d') (english_days ++ swahili_days) ->
                       contains name' (lower "Kesho ni Jumamosi?") = true ->
                       d' = d) ->
     forall today, extract_day_from_text today "Kesho ni Jumamosi?" = Some d).
Proof.
  apply (X3_named_day_beats_the_calendar "Kesho ni Jumamosi?").
  reflexivity.
Defined.

Example named_days :
  (* the day named wins over the relative word, on the last day of the
     calendar too; of two days named the first in the table wins, not the
     first in the text *)
  extract_day_from_text MAXORDINAL "Kesho ni Jumamosi?" = Some "Saturday" /\
  extract_day_from_text 739610 "tomorrow, friday" = Some "Friday" /\
  extract_day_from_text 739610 "on sunday or on monday" = Some "Monday" /\
  extract_day_from_text 739610 "jumatatu or sunday" = Some "Sunday".
Proof. repeat split; reflexivity. Qed.

Section RelativeDay.

Variable strftime_ymd : Z -> string.
Variable today : Z.
Hypothesis today_inside : MINORDINAL < today < MAXORDINAL.

(** Without a date pattern and without a day name, the date and the day
    come from the same calendar day. *)
Lemma relative_date_and_day (text : string) :
  first_date_match 0 date_patterns (lower text) = None ->
  any_in (map fst english_days ++ map fst swahili_days) (lower text) = false ->
  exists d, today - 1 <= d <= today + 1 /\
            extract_date_from_text strftime_ymd today text
            = Some (strftime_ymd d) /\
            extract_day_from_text today text = Some (strftime_A d).
Proof.
  intros Hdate Hday. unfold any_in in Hday. rewrite existsb_app in Hday.
  apply orb_false_iff in Hday. destruct Hday as [He Hs].
  unfold extract_date_from_text, extract_day_from_text.
  rewrite Hdate, (first_in_none english_days _ He),
    (first_in_none swahili_days _ Hs).
  rewrite !plus_days_ok by lia. cbn [bind ret].
  destruct (contains "today" (lower text) || contains "leo" (lower text)).
  { exists today. split; [lia | auto]. }
  destruct (contains "tomorrow" (lower text)
            || contains "kesho" (lower text)).
  { exists (today + 1). split; [lia | auto]. }
  destruct (contains "yesterday" (lower text)
            || contains "jana" (lower text)).
  { exists (today + -1). split; [lia | auto]. }
  exists today. split; [lia | auto].
Qed.

End RelativeDay.

(** X4: when a text has neither a date in one of the three formats nor a
    day name, the date and the day of the week the extractors give belong
    to one and the same calendar day, which is today, tomorrow or
    yesterday: both extractors resolve the relative words in the same
    order (while tomorrow and yesterday exist for the calendar). *)
Theorem X4_relative_date_and_day_agree
  (strftime_ymd : Z -> string) (today : Z) (text : string) :
  MINORDINAL < today < MAXORDINAL ->
  first_date_match 0 date_patterns (lower text) = None ->
  any_in (map fst english_days ++ map fst swahili_days) (lower text) = false ->
  exists d, today - 1 <= d <= today + 1 /\
            extract_date_from_text strftime_ymd today text
            = Some (strftime_ymd d) /\
            extract_day_from_text today text = Some (strftime_A d).
Proof. intros H. now apply relative_date_and_day. Qed.

Lemma X4_relative_date_and_day_witness :
  exists d, 739610 - 1 <= d <= 739610 + 1 /\
            extract_date_from_text demo_strftime_ymd 739610
                                   "How busy is it tomorrow?"
            = Some (demo_strftime_ymd d) /\
            extract_day_from_text 739610 "How busy is it tomorrow?"
            = Some (strftime_A d).
Proof.
  apply (X4_relative_date_and_day_agree demo_strftime_ymd 739610
           "How busy is it tomorrow?").
  - unfold MINORDINAL, MAXORDINAL. lia.
  - reflexivity.
  - reflexivity.
Defined.

Example explicit_date_does_not_set_the_day :
  (* 2025-12-25 is a Thursday; asked on Saturday 2025-12-27 *)
  let q := extract_structured_data (fun _ => "2025-12-27") 739612
                                   "2025-12-25, will it be busy?" in
  date q = "2025-12-25" /\ day q = "Saturday" /\ weekends q = "Yes".
Proof. cbv zeta. repeat split; reflexivity. Qed.

(** ** Swahili words and the language of the reply *)

(** X5: a text in which a Swahili day name, time-of-day word, [saa],
    weather word [mvua] or [jua], or relative day [leo], [kesho], [jana]
    occurs is detected as Swahili, so what these words extract is answered
    in Swahili; [mawingo] (cloudy) and [sikukuu] (holiday) do not have this
    effect. *)
Theorem X5_swahili_extractor_words_set_language (k text : string) :
  In k swahili_extractor_words -> contains k (lower text) = true ->
  detect_language text = "Swahili".
Proof.
  intros Hin Hk. apply (detect_language_keyword k); [|exact Hk].
  assert (Hall : forallb
                   (fun w => existsb (String.eqb w) swahili_language_keywords)
                   swahili_extractor_words = true) by reflexivity.
  rewrite forallb_forall in Hall. specialize (Hall k Hin).
  apply existsb_exists in Hall. destruct Hall as [w [Hw Heq]].
  apply String.eqb_eq in Heq. now subst.
Qed.

Lemma X5_swahili_extractor_words_witness :
  extract_time_from_text "Abiria wangapi jioni?" = Some "18:00" /\
  detect_language "Abiria wangapi jioni?" = "Swahili".
Proof.
  split; [reflexivity|].
  apply (X5_swahili_extractor_words_set_language
           "jioni" "Abiria wangapi jioni?"); [|reflexivity].
  unfold swahili_extractor_words. cbn. tauto.
Defined.

Example mawingo_and_sikukuu_stay_english :
  extract_weather_from_text "mawingo" = "Cloudy" /\
  detect_language "mawingo" = "English" /\
  is_holiday_from_text "sikukuu" = "Yes" /\
  detect_language "sikukuu" = "English".
Proof. repeat split; reflexivity. Qed.

(** ** Named times *)

Lemma contains_trans (a b t : string) :
  contains a b = true -> contains b t = true -> contains a t = true.
Proof.
  rewrite !contains_spec. intros [u [v ->]] [x [y ->]].
  exists (x ++ u), (v ++ y). now rewrite !append_assoc.
Qed.

(** X6: a text with the word midnight and no clock time in it is never
    read as 00:00: [night] stands before [midnight] in the table of named
    times and is a part of it, so the answer is 20:00, or what an earlier
    word of the table (morning, afternoon, evening) gives; the entry for
    midnight is never reached. *)
Theorem X6_midnight_is_read_as_night (text : string) :
  first_time_match time_patterns (lower text) = None ->
  contains "midnight" (lower text) = true ->
  In (extract_time_from_text text)
     [Some "08:00"; Some "14:00"; Some "18:00"; Some "20:00"].
Proof.
  intros Hnone Hmid.
  assert (Hnight : contains "night" (lower text) = true)
    by (apply (contains_trans "night" "midnight"); [reflexivity | exact Hmid]).
  unfold extract_time_from_text. rewrite Hnone.
  unfold named_times. cbn [first_in]. rewrite Hnight.
  destruct (contains "morning" (lower text));
    destruct (contains "afternoon" (lower text));
    destruct (contains "evening" (lower text)); cbn; tauto.
Qed.

Lemma X6_midnight_witness :
  In (extract_time_from_text "Is the bus crowded at midnight?")
     [Some "08:00"; Some "14:00"; Some "18:00"; Some "20:00"].
Proof.
  apply (X6_midnight_is_read_as_night "Is the bus crowded at midnight?");
    reflexivity.
Defined.

Example midnight_examples :
  extract_time_from_text "Is the bus crowded at midnight?" = Some "20:00" /\
  extract_time_from_text "midnight or morning?" = Some "08:00" /\
  extract_time_from_text "at 00:00" = Some "00:00".
Proof. repeat split; reflexivity. Qed.

(** ** Clock times *)

Lemma forallb_Z_range (n : nat) (f : Z -> bool) (z : Z) :
  forallb f (map Z.of_nat (seq 0 n)) = true -> 0 <= z < Z.of_nat n ->
  f z = true.
Proof.
  intros Hall Hz. rewrite forallb_forall in Hall.
  apply Hall. now apply in_Z_range.
Qed.

Lemma string_eqb_some (r : exc string) (s : string) :
  match r with Some t => (t =? s)%string | None => false end = true ->
  r = Some s.
Proof.
  destruct r as [t|]; [|discriminate]. intros H.
  apply String.eqb_eq in H. now subst.
Qed.

(** X7: a text that is just a clock time H:MM, with the hour in 0..99 as
    one or two digits and the minute in 0..99, is extracted unchanged
    (padded to two digits); followed by pm the hour gets 12 added unless it
    is 12, and followed by am an hour of 12 becomes 0 and any other hour is
    kept. *)
Theorem X7_clock_time_and_marker (h m : Z) :
  0 <= h <= 99 -> 0 <= m <= 99 ->
  extract_time_from_text (py_str h ++ ":" ++ fmt02 m)
  = Some (fmt02 h ++ ":" ++ fmt02 m) /\
  extract_time_from_text (fmt02 h ++ ":" ++ fmt02 m)
  = Some (fmt02 h ++ ":" ++ fmt02 m) /\
  extract_time_from_text (py_str h ++ ":" ++ fmt02 m ++ " PM")
  = Some (fmt02 (if h =? 12 then 12 else h + 12) ++ ":" ++ fmt02 m) /\
  extract_time_from_text (py_str h ++ ":" ++ fmt02 m ++ "am")
  = Some (fmt02 (if h =? 12 then 0 else h) ++ ":" ++ fmt02 m).
Proof.
  intros Hh Hm.
  assert (Hall :
    forallb (fun h =>
      forallb (fun m =>
        let same := fmt02 h ++ ":" ++ fmt02 m in
        match extract_time_from_text (py_str h ++ ":" ++ fmt02 m) with
        | Some t => (t =? same)%string | None => false end
        && match extract_time_from_text same with
           | Some t => (t =? same)%string | None => false end
        && match extract_time_from_text
                   (py_str h ++ ":" ++ fmt02 m ++ " PM") with
           | Some t =>
               String.eqb t (fmt02 (if h =? 12 then 12 else h + 12) ++ ":"
                             ++ fmt02 m)
           | None => false end
        && match extract_time_from_text
                   (py_str h ++ ":" ++ fmt02 m ++ "am") with
           | Some t =>
               String.eqb t (fmt02 (if h =? 12 then 0 else h) ++ ":"
                             ++ fmt02 m)
           | None => false end)
        (map Z.of_nat (seq 0 100))) (map Z.of_nat (seq 0 100)) = true)
    by (vm_compute; reflexivity).
  pose proof (forallb_Z_range 100 _ h Hall ltac:(lia)) as Hrow.
  cbv beta in Hrow.
  pose proof (forallb_Z_range 100 _ m Hrow ltac:(lia)) as Hcell.
  cbv beta zeta in Hcell.
  rewrite !andb_true_iff in Hcell.
  destruct Hcell as [[[H1 H2] H3] H4].
  repeat split; now apply string_eqb_some.
Qed.

Lemma X7_clock_time_witness :
  extract_time_from_text "5:30 PM" = Some "17:30" /\
  extract_time_from_text "12:05am" = Some "00:05".
Proof.
  pose proof (X7_clock_time_and_marker 5 30 ltac:(lia) ltac:(lia)) as H5.
  pose proof (X7_clock_time_and_marker 12 5 ltac:(lia) ltac:(lia)) as H12.
  split; [exact (proj1 (proj2 (proj2 H5))) | exact (proj2 (proj2 (proj2 H12)))].
Defined.

(** ** The time and the day as the reply shows them *)

Lemma display_then_extract_some (language t back : string) :
  match time_display language t with
  | Some shown =>
      match extract_time_from_text shown with
      | Some r => (r =? back)%string
      | None => false
      end
  | None => false
  end = true ->
  exists shown, time_display language t = Some shown /\
                extract_time_from_text shown = Some back.
Proof.
  destruct (time_display language t) as [shown|]; [|discriminate].
  intros H. exists shown. split; [reflexivity|]. now apply string_eqb_some.
Qed.

(** X8: for every time of the day HH:MM (hour 0..23, minute 0..59) the
    English reply shows the time in a form from which the time extractor
    reads the same time back: midnight (00:MM), H:MM AM, 12:MM PM and
    H:MM PM all return to HH:MM. *)
Theorem X8_english_time_display_reads_back (h m : Z) :
  0 <= h <= 23 -> 0 <= m <= 59 ->
  exists shown,
    time_display "English" (fmt02 h ++ ":" ++ fmt02 m) = Some shown /\
    extract_time_from_text shown = Some (fmt02 h ++ ":" ++ fmt02 m).
Proof.
  intros Hh Hm.
  assert (Hall :
    forallb (fun h =>
      forallb (fun m =>
        let t := fmt02 h ++ ":" ++ fmt02 m in
        match time_display "English" t with
        | Some shown =>
            match extract_time_from_text shown with
            | Some r => (r =? t)%string
            | None => false
            end
        | None => false
        end) (map Z.of_nat (seq 0 60))) (map Z.of_nat (seq 0 24)) = true)
    by (vm_compute; reflexivity).
  pose proof (forallb_Z_range 24 _ h Hall ltac:(lia)) as Hrow.
  cbv beta in Hrow.
  pose proof (forallb_Z_range 60 _ m Hrow ltac:(lia)) as Hcell.
  cbv beta zeta in Hcell.
  now apply display_then_extract_some.
Qed.

Lemma X8_english_time_display_witness :
  exists shown,
    time_display "English" "17:05" = Some shown /\
    extract_time_from_text shown = Some "17:05".
Proof.
  exact (X8_english_time_display_reads_back 17 5 ltac:(lia) ltac:(lia)).
Defined.

(** X9: the Swahili reply shows the hours after noon as [saa H:MM jioni]
    with 12 taken off, and the time extractor, which knows am and pm only,
    reads such a time back 12 hours early; up to 12:59 the Swahili display
    reads back unchanged. The Swahili day names of the reply read back, by
    the day extractor, as the English names they stand for. *)
Theorem X9_swahili_display_reads_back (h m : Z) :
  0 <= h <= 23 -> 0 <= m <= 59 ->
  (exists shown,
     time_display "Swahili" (fmt02 h ++ ":" ++ fmt02 m) = Some shown /\
     extract_time_from_text shown
     = Some (fmt02 (if h <=? 12 then h else h - 12) ++ ":" ++ fmt02 m)) /\
  (forall today d, In d day_names ->
                   extract_day_from_text today (day_display d) = Some d).
Proof.
  intros Hh Hm. split.
  - assert (Hall :
      forallb (fun h =>
        forallb (fun m =>
          match time_display "Swahili" (fmt02 h ++ ":" ++ fmt02 m) with
          | Some shown =>
              match extract_time_from_text shown with
              | Some r =>
                  String.eqb r (fmt02 (if h <=? 12 then h else h - 12)
                                  ++ ":" ++ fmt02 m)
              | None => false
              end
          | None => false
          end) (map Z.of_nat (seq 0 60))) (map Z.of_nat (seq 0 24)) = true)
      by (vm_compute; reflexivity).
    pose proof (forallb_Z_range 24 _ h Hall ltac:(lia)) as Hrow.
    cbv beta in Hrow.
    pose proof (forallb_Z_range 60 _ m Hrow ltac:(lia)) as Hcell.
    cbv beta in Hcell.
    now apply display_then_extract_some.
  - intros today d Hd. unfold day_names in Hd. cbn [In] in Hd.
    repeat (destruct Hd as [<- | Hd]; [reflexivity|]). contradiction.
Qed.

Lemma X9_swahili_display_witness :
  exists shown,
    time_display "Swahili" "17:05" = Some shown /\
    extract_time_from_text shown = Some "05:05".
Proof.
  exact (proj1 (X9_swahili_display_reads_back 17 5 ltac:(lia) ltac:(lia))).
Defined.

Example displays :
  time_display "English" "17:05" = Some "5:05 PM" /\
  time_display "English" "00:30" = Some "midnight (00:30)" /\
  time_display "Swahili" "17:05" = Some "saa 5:05 jioni" /\
  time_display "Swahili" "08:00" = Some "saa 8:00 asubuhi" /\
  time_display "English" "25:00" = Some "13:00 PM" /\
  time_display "English" "8" = None /\
  day_display "Saturday" = "Jumamosi" /\ day_display "Samedi" = "Samedi".
Proof. repeat split; reflexivity. Qed.

(** ** Clock times and the intent *)

(** The match [re.search] reports lies somewhere in the text. *)
Lemma search_sound_in (r : regex) (s : string) (m : groups) :
  search r s = Some m ->
  exists a w b, s = a ++ w ++ b /\ sem r w no_groups m.
Proof.
  induction s as [|c s IH]; cbn [search].
  - destruct (match_at r "" no_groups) as [|[s' g'] rest] eqn:Hm;
      [discriminate|].
    intros Heq. assert (g' = m) by congruence. subst g'.
    destruct (match_at_sound r "" no_groups s' m) as [w [Hw Hsem]].
    { rewrite Hm. now left. }
    exists "", w, s'. auto.
  - destruct (match_at r (String c s) no_groups) as [|[s' g'] rest] eqn:Hm.
    + intros H. destruct (IH H) as (a & w & b & -> & Hsem).
      exists (String c a), w, b. auto.
    + intros Heq. assert (g' = m) by congruence. subst g'.
      destruct (match_at_sound r (String c s) no_groups s' m)
        as [w [Hw Hsem]].
      { rewrite Hm. now left. }
      exists "", w, s'. auto.
Qed.

Lemma contains_here (k b : string) : contains k (k ++ b) = true.
Proof. apply contains_spec. exists "", b. reflexivity. Qed.

Lemma contains_app_r (k a b : string) :
  contains k b = true -> contains k (a ++ b) = true.
Proof.
  rewrite !contains_spec. intros [x [y ->]].
  exists (a ++ x), y. now rewrite append_assoc.
Qed.

Lemma contains_app_l (k a b : string) :
  contains k a = true -> contains k (a ++ b) = true.
Proof.
  rewrite !contains_spec. intros [x [y ->]].
  exists x, (y ++ b). now rewrite !append_assoc.
Qed.

Ltac find_literal :=
  repeat first [ reflexivity | apply contains_here | apply contains_app_r ].

(** A match of one of the first four time patterns holds a colon, [am],
    [pm] or [saa]. *)
Lemma time_match_has_indicator (p : regex) (w : string) (m : groups) :
  In p (firstn 4 time_patterns) -> sem p w no_groups m ->
  exists k, In k [":"; "am"; "pm"; "saa"] /\ contains k w = true.
Proof.
  intros Hin Hw. unfold time_patterns in Hin. cbn [firstn In] in Hin.
  destruct Hin as [<- | [<- | [<- | [<- | []]]]];
    cbn [cat sem digits spaces0 spaces1 am_pm] in Hw; sem_inv.
  1-3, 6: exists ":"; split; [cbn; tauto | find_literal].
  1: exists "am"; split; [cbn; tauto | find_literal].
  1: exists "pm"; split; [cbn; tauto | find_literal].
  exists "saa"; split; [cbn; tauto | find_literal].
Qed.

(** X10: whenever one of the first four time patterns (H:MM with an
    optional am/pm, H am/pm, at H:MM, saa H) finds a time in a text, the
    text is a prediction request: the colon, [am], [pm] and [saa] are time
    indicators. The fifth pattern is not covered: "00 oclock" gives the
    time 00:00 and is not a prediction request. *)
Theorem X10_found_clock_time_is_prediction_request
  (p : regex) (text : string) :
  In p (firstn 4 time_patterns) -> search p (lower text) <> None ->
  is_prediction_request text = true.
Proof.
  intros Hin Hs.
  destruct (search p (lower text)) as [m|] eqn:Hm; [clear Hs | congruence].
  apply search_sound_in in Hm.
  destruct Hm as (a & w & b & Htext & Hsem).
  destruct (time_match_has_indicator p w m Hin Hsem) as [k [Hk Hc]].
  unfold is_prediction_request. apply orb_true_iff. right.
  apply any_in_spec. exists k. split.
  - cbn [In] in Hk. unfold time_indicators.
    destruct Hk as [<- | [<- | [<- | [<- | []]]]]; cbn; tauto.
  - rewrite Htext. apply contains_app_r. now apply contains_app_l.
Qed.

Lemma X10_found_clock_time_witness :
  is_prediction_request "See you at 0:00" = true.
Proof.
  apply (X10_found_clock_time_is_prediction_request
           (nth 0 time_patterns (Lit "")) "See you at 0:00").
  - cbn. tauto.
  - vm_compute. discriminate.
Defined.

Example zero_oclock_is_no_request :
  extract_time_from_text "00 oclock" = Some "00:00" /\
  is_prediction_request "00 oclock" = false.
Proof. split; reflexivity. Qed.

(** ** The matcher finds every match *)

Lemma run_app_ge (p : ascii -> bool) (w s : string) :
  all_chars p w = true -> (String.length w <= run p (w ++ s))%nat.
Proof.
  induction w as [|c w IH]; cbn [all_chars String.length append run];
    [lia|].
  intros H. apply andb_true_iff in H. destruct H as [Hc Hw].
  rewrite Hc. specialize (IH Hw). lia.
Qed.

(** [match_at] lists every match in the sense of [sem]. *)
Lemma match_at_complete (r : regex) :
  forall w g g' s',
    sem r w g g' -> In (s', g') (match_at r (w ++ s') g).
Proof.
  induction r as [l | p lo hi | r IH | r1 IH1 r2 IH2 | r1 IH1 r2 IH2 | i r IH];
    intros w g g' s' Hsem; cbn [sem] in Hsem; cbn [match_at].
  - destruct Hsem as [-> ->].
    assert (Hl : startswith l (l ++ s') = true)
      by (apply startswith_spec; eauto).
    rewrite Hl, drop_append. now left.
  - destruct Hsem as (Hall & Hlo & Hhi & ->).
    apply in_map_iff. exists (String.length w). split.
    + now rewrite drop_append.
    + apply -> in_rev. apply in_seq.
      pose proof (run_app_ge p w s' Hall) as Hrun.
      destruct hi as [h|]; cbn [cap]; lia.
  - apply in_or_app. destruct Hsem as [H | [-> ->]].
    + left. now apply IH.
    + right. now left.
  - apply in_or_app. destruct Hsem as [H | H]; [left | right]; auto.
  - destruct Hsem as (w1 & w2 & g1 & -> & H1 & H2).
    apply in_flat_map. exists (w2 ++ s', g1). split.
    + rewrite append_assoc. now apply IH1.
    + now apply IH2.
  - destruct Hsem as (g1 & H & ->).
    apply in_map_iff. exists (s', g1). split; [|now apply IH].
    rewrite length_append.
    replace (String.length w + String.length s' - String.length s')%nat
      with (String.length w) by lia.
    now rewrite take_append.
Qed.

(** A match anywhere in the text makes [re.search] succeed. *)
Lemma search_finds (r : regex) (a w b : string) (g : groups) :
  sem r w no_groups g -> search r (a ++ w ++ b) <> None.
Proof.
  intros Hsem. pose proof (match_at_complete r w no_groups g b Hsem) as Hin.
  induction a as [|c a IH]; cbn [append].
  - destruct (w ++ b) as [|c s] eqn:E; cbn [search];
      destruct (match_at r _ no_groups) as [|[s' g'] rest];
      try contradiction; discriminate.
  - cbn [search].
    destruct (match_at r (String c (a ++ w ++ b)) no_groups)
      as [|[s' g'] rest]; [exact IH | discriminate].
Qed.

(** The first time pattern on a bare H:MM. *)
Lemma first_pattern_on_clock (d1 d2 : string) :
  all_chars is_decimal d1 = true ->
  (1 <= String.length d1)%nat -> (String.length d1 <= 2)%nat ->
  all_chars is_decimal d2 = true ->
  (2 <= String.length d2)%nat -> (String.length d2 <= 2)%nat ->
  sem (nth 0 time_patterns (Lit "")) (d1 ++ ":" ++ d2 ++ "" ++ "") no_groups
      (set_group 2 d2 (set_group 1 d1 no_groups)).
Proof.
  intros A1 L1 U1 A2 L2 U2.
  cbn [nth time_patterns cat sem digits spaces0 am_pm].
  exists d1, (":" ++ d2 ++ "" ++ ""), (set_group 1 d1 no_groups).
  split; [reflexivity|]. split.
  { exists no_groups. auto. }
  exists ":", (d2 ++ "" ++ ""), (set_group 1 d1 no_groups).
  split; [reflexivity|]. split; [auto|].
  exists d2, ("" ++ ""), (set_group 2 d2 (set_group 1 d1 no_groups)).
  split; [reflexivity|]. split.
  { exists (set_group 1 d1 no_groups). auto. }
  exists "", "", (set_group 2 d2 (set_group 1 d1 no_groups)).
  split; [reflexivity|]. split.
  { cbn. auto with arith. }
  right. auto.
Qed.

Lemma at_pattern_implies_first (t : string) :
  search (nth 2 time_patterns (Lit "")) t <> None ->
  search (nth 0 time_patterns (Lit "")) t <> None.
Proof.
  intros H3.
  destruct (search (nth 2 time_patterns (Lit "")) t) as [m3|] eqn:Hs;
    [clear H3 | congruence].
  apply search_sound_in in Hs. destruct Hs as (a & w & b & Ht & Hsem).
  cbn [nth time_patterns cat sem digits spaces1] in Hsem. sem_inv.
  match goal with
  | |- context [a ++ ("at" ++ ?sp ++ ?d1 ++ ":" ++ ?d2) ++ b] =>
      replace (a ++ ("at" ++ sp ++ d1 ++ ":" ++ d2) ++ b)
        with ((a ++ "at" ++ sp) ++ (d1 ++ ":" ++ d2 ++ "" ++ "") ++ b)
  end.
  - eapply search_finds. apply first_pattern_on_clock; assumption.
  - cbn [append]. rewrite !append_assoc. cbn [append].
    rewrite !append_assoc. cbn [append]. reflexivity.
Qed.

(** X11: the third time pattern, at H:MM, never decides the time: where
    it matches, the first pattern H:MM matches too, and being tried first
    it is the one that answers (so "at 5:30 pm" gets the pm shift of the
    first pattern). *)
Theorem X11_at_pattern_never_decides (text : string) :
  search (nth 2 time_patterns (Lit "")) (lower text) <> None ->
  exists m, search (nth 0 time_patterns (Lit "")) (lower text) = Some m /\
            extract_time_from_text text
            = time_of_match (nth 0 time_patterns (Lit "")) m.
Proof.
  intros H3. apply at_pattern_implies_first in H3.
  destruct (search (nth 0 time_patterns (Lit "")) (lower text)) as [m|] eqn:Hm;
    [|congruence].
  exists m. split; [reflexivity|].
  unfold extract_time_from_text.
  change time_patterns
    with (nth 0 time_patterns (Lit "") :: tl time_patterns).
  cbn [first_time_match]. now rewrite Hm.
Qed.

Lemma X11_at_pattern_witness :
  exists m, search (nth 0 time_patterns (Lit "")) (lower "at 5:30 pm")
            = Some m /\
            extract_time_from_text "at 5:30 pm"
            = time_of_match (nth 0 time_patterns (Lit "")) m.
Proof.
  apply (X11_at_pattern_never_decides "at 5:30 pm").
  vm_compute. discriminate.
Defined.

Example at_time_gets_the_pm_shift :
  extract_time_from_text "at 5:30 pm" = Some "17:30" /\
  extract_time_from_text "at 5:30" = Some "05:30".
Proof. split; reflexivity. Qed.

(** ** The endpoints *)

Lemma rstrip_empty (p : ascii -> bool) (s : string) :
  rstrip_by p s = "" <-> all_chars p s = true.
Proof.
  induction s as [|c s IH]; cbn [rstrip_by all_chars]; [tauto|].
  destruct (rstrip_by p s) as [|b r].
  - destruct (p c); cbn [andb].
    + split; [intros _; now apply IH | reflexivity].
    + split; discriminate.
  - split; [discriminate|]. intros H. apply andb_true_iff in H.
    destruct H as [_ H]. apply IH in H. discriminate.
Qed.

Lemma all_chars_lstrip (p : ascii -> bool) (s : string) :
  all_chars p (lstrip_by p s) = all_chars p s.
Proof.
  induction s as [|c s IH]; cbn [lstrip_by all_chars]; [reflexivity|].
  destruct (p c) eqn:Hc; cbn [andb all_chars]; [exact IH|].
  now rewrite Hc.
Qed.

(** [strip] leaves nothing exactly of the texts made of whitespace. *)
Lemma strip_empty (s : string) :
  strip s = "" <-> all_chars is_space s = true.
Proof. unfold strip. now rewrite rstrip_empty, all_chars_lstrip. Qed.

(** A time the predictor can read is a time the reply can show. *)
Lemma time_display_reads (language time_str : string) (m : Z) :
  time_minutes time_str = Some m ->
  exists shown, time_display language time_str = Some shown.
Proof.
  unfold time_minutes, time_display, bind, ret.
  destruct (nth_error (split ":" time_str) 0) as [p0|]; [|discriminate].
  destruct (py_int p0) as [hour|]; [|discriminate].
  destruct (nth_error (split ":" time_str) 1) as [p1|]; [|discriminate].
  destruct (py_int p1) as [minute|]; [|discriminate].
  intros _. split_branches; eauto.
Qed.

(** The reply to a prediction request is always made: its time is one the
    extraction printed, on the normal path and with the safe defaults. *)
Lemma prediction_response_made (strftime_ymd : Z -> string) (today : Z)
  (prompt language : string) (prediction : Z) :
  exists made,
    generate_prediction_response
      prediction (extract_structured_data strftime_ymd today prompt) language
    = Some made.
Proof.
  assert (H : exists m,
             time_minutes
               (time (extract_structured_data strftime_ymd today prompt))
             = Some m).
  { unfold extract_structured_data, try_except.
    destruct (extract_fields strftime_ymd today prompt) as [q|] eqn:Hq.
    - apply (extract_fields_in_vocabulary strftime_ymd today prompt q Hq).
    - apply safe_defaults_in_vocabulary. }
  destruct H as [m Hm].
  destruct (time_display_reads language _ m Hm) as [shown Hs].
  unfold generate_prediction_response, bind, ret. rewrite Hs. eauto.
Qed.

(** X12: what /predict-from-prompt and /extract-data answer by the shape
    of the request. A prompt is turned down as empty (400) exactly when it
    consists of whitespace only, the empty text included; every other text
    is answered by /predict-from-prompt with one of the four message types
    greeting, thank_you, prediction and fallback, the making of the reply
    never raising on an extracted query. A body that is null, empty or
    without the key prompt is turned down with "No prompt provided" (400).
    The 500 answer of the outer [except] is given exactly when
    [get_json()] raises or the reading of the prompt does, as on a prompt
    that is not a string, and /predict-from-prompt then answers in
    English. *)
Theorem X12_blank_prompts_are_refused
  (strftime_ymd : Z -> string) (today : Z) (to_ordinal : string -> exc Z)
  (encoders : Encoders) (model_predict : DataFrame -> exc Z)
  (text : string) :
  (route_predict_from_prompt strftime_ymd today to_ordinal encoders
     model_predict (Json (Text text)) = BadRequest "Empty prompt provided"
   <-> all_chars is_space text = true) /\
  (route_extract_data strftime_ymd today (Json (Text text))
   = ExtractBadRequest "Empty prompt provided"
   <-> all_chars is_space text = true) /\
  (all_chars is_space text = false ->
   exists t, message_type_of
               (route_predict_from_prompt strftime_ymd today to_ordinal
                  encoders model_predict (Json (Text text))) = Some t /\
             In t ["greeting"; "thank_you"; "prediction"; "fallback"]) /\
  route_predict_from_prompt strftime_ymd today to_ordinal encoders
    model_predict (Json NoPrompt) = BadRequest "No prompt provided" /\
  route_extract_data strftime_ymd today (Json NoPrompt)
  = ExtractBadRequest "No prompt provided" /\
  (forall request,
     (exists language,
        route_predict_from_prompt strftime_ymd today to_ordinal encoders
          model_predict request = ServerError language) <->
     request = NotJson \/ request = Json NotText) /\
  (forall request,
     route_predict_from_prompt strftime_ymd today to_ordinal encoders
       model_predict request = ServerError "English" <->
     route_extract_data strftime_ymd today request = ExtractServerError).
Proof.
  assert (Hnever : forall body language,
            predict_from_prompt strftime_ymd today to_ordinal encoders
              model_predict body <> ServerError language).
  { intros [t|] language; cbn [predict_from_prompt]; [|discriminate].
    unfold predict_from_prompt.
    destruct (prediction_response_made strftime_ymd today (strip t)
                (detect_language (strip t))
                (predict_passengers to_ordinal encoders model_predict
                   (extract_structured_data strftime_ymd today (strip t))))
      as [made ->].
    split_branches; discriminate. }
  assert (Hnever' : forall body,
            extract_data_only strftime_ymd today body <> ExtractServerError).
  { intros [t|]; unfold extract_data_only; split_branches; discriminate. }
  cbn [route_predict_from_prompt route_extract_data].
  repeat match goal with |- _ /\ _ => split end.
  - rewrite <- strip_empty. unfold predict_from_prompt.
    destruct (String.eqb_spec (strip text) "") as [E | E]; [tauto|].
    split; [|tauto]. split_branches; discriminate.
  - rewrite <- strip_empty. unfold extract_data_only.
    destruct (String.eqb_spec (strip text) "") as [E | E]; [tauto|].
    split; [discriminate | tauto].
  - intros Hns.
    assert (E : (strip text =? "")%string = false).
    { apply not_true_iff_false. intros E. apply String.eqb_eq in E.
      apply strip_empty in E. congruence. }
    unfold predict_from_prompt. rewrite E.
    destruct (prediction_response_made strftime_ymd today (strip text)
                (detect_language (strip text))
                (predict_passengers to_ordinal encoders model_predict
                   (extract_structured_data strftime_ymd today
                                            (strip text))))
      as [made ->].
    split_branches; eexists; (split; [reflexivity | cbn; tauto]).
  - reflexivity.
  - reflexivity.
  - intros [|[| |t]]; cbn [route_predict_from_prompt]; split.
    + auto.
    + eauto.
    + intros [l H]. discriminate H.
    + intros [H | H]; discriminate H.
    + auto.
    + eauto.
    + intros [l H]. exfalso. exact (Hnever _ _ H).
    + intros [H | H]; discriminate H.
  - intros [|[| |t]]; cbn [route_predict_from_prompt route_extract_data];
      split; try reflexivity; intros H; exfalso;
      first [ discriminate H | exact (Hnever _ _ H) | exact (Hnever' _ H) ].
Qed.

Lemma X12_blank_prompts_witness :
  route_predict_from_prompt demo_strftime_ymd 739610 demo_to_ordinal
    resaved_encoders demo_model (Json (Text "   "))
  = BadRequest "Empty prompt provided" /\
  exists t, message_type_of
              (route_predict_from_prompt demo_strftime_ymd 739610
                 demo_to_ordinal resaved_encoders demo_model
                 (Json (Text " ok "))) = Some t /\
            In t ["greeting"; "thank_you"; "prediction"; "fallback"].
Proof.
  split.
  - apply (proj1 (X12_blank_prompts_are_refused demo_strftime_ymd 739610
                    demo_to_ordinal resaved_encoders demo_model "   ")).
    reflexivity.
  - apply (proj1 (proj2 (proj2 (X12_blank_prompts_are_refused
                    demo_strftime_ymd 739610 demo_to_ordinal resaved_encoders
                    demo_model " ok ")))).
    reflexivity.
Defined.

Example requests_without_a_text :
  route_predict_from_prompt demo_strftime_ymd 739610 demo_to_ordinal
    resaved_encoders demo_model NotJson = ServerError "English" /\
  message_type_of
    (route_predict_from_prompt demo_strftime_ymd 739610 demo_to_ordinal
       resaved_encoders demo_model (Json NotText)) = Some "error" /\
  route_predict_from_prompt demo_strftime_ymd 739610 demo_to_ordinal
    resaved_encoders demo_model (Json NoPrompt)
  = BadRequest "No prompt provided" /\
  route_extract_data demo_strftime_ymd 739610 NotJson = ExtractServerError /\
  route_predict_structured demo_to_ordinal resaved_encoders demo_model NotJson
  = StructuredServerError /\
  route_predict_structured demo_to_ordinal resaved_encoders demo_model
    (Json None)
  = StructuredBadRequest "No structured data provided".
Proof. repeat split; reflexivity. Qed.

(** X13: when /predict-from-prompt answers a prompt as a prediction,
    /extract-data gives for the same prompt the same structured data and
    the same language and reports a prediction request, and the predicted
    number is [predict_passengers] of exactly that structured data. *)
Theorem X13_prediction_reply_matches_extract_data
  (strftime_ymd : Z -> string) (today : Z) (to_ordinal : string -> exc Z)
  (encoders : Encoders) (model_predict : DataFrame -> exc Z)
  (text : string) :
  message_type_of
    (predict_from_prompt strftime_ymd today to_ordinal encoders model_predict
                         (Some text)) = Some "prediction" ->
  exists q language,
    extract_data_only strftime_ymd today (Some text)
    = ExtractReply q language (strip text) true /\
    predict_from_prompt strftime_ymd today to_ordinal encoders model_predict
                        (Some text)
    = Reply (predict_passengers to_ordinal encoders model_predict q)
            (Some q) language "prediction".
Proof.
  unfold predict_from_prompt, extract_data_only.
  destruct (strip text =? "")%string; [discriminate|].
  destruct (any_in greetings (lower (strip text))); [discriminate|].
  destruct (any_in thank_you_phrases (lower (strip text))); [discriminate|].
  destruct (is_prediction_request (strip text)); [|discriminate].
  destruct (generate_prediction_response _ _ _); [|discriminate].
  intros _. eauto.
Qed.

Lemma X13_prediction_reply_witness :
  exists q language,
    extract_data_only demo_strftime_ymd 739610
                      (Some " How many passengers at 5:30 pm? ")
    = ExtractReply q language "How many passengers at 5:30 pm?" true /\
    predict_from_prompt demo_strftime_ymd 739610 demo_to_ordinal
      resaved_encoders demo_model (Some " How many passengers at 5:30 pm? ")
    = Reply (predict_passengers demo_to_ordinal resaved_encoders demo_model q)
            (Some q) language "prediction".
Proof.
  apply (X13_prediction_reply_matches_extract_data demo_strftime_ymd 739610
           demo_to_ordinal resaved_encoders demo_model
           " How many passengers at 5:30 pm? ").
  reflexivity.
Defined.

Example extract_data_has_no_intent_gate :
  (* a greeting is not extracted by one endpoint and is by the other *)
  predict_from_prompt demo_strftime_ymd 739610 demo_to_ordinal
    resaved_encoders demo_model (Some "hello at 5:30 pm")
  = Reply 0 None "English" "greeting" /\
  extract_data_only demo_strftime_ymd 739610 (Some "hello at 5:30 pm")
  = ExtractReply
      {| date := "2025-12-25"; time := "17:30"; day := "Thursday";
         weather := "Sunny"; peak_hours := "Yes"; weekends := "No";
         holidays := "No" |}
      "English" "hello at 5:30 pm" true.
Proof. split; reflexivity. Qed.

(** *** /predict-structured *)

Lemma first_missing_none (fields : list string) (data : JsonObject) :
  first_missing fields data = None <->
  forall f, In f fields -> dict_get f data <> None.
Proof.
  induction fields as [|f fields IH]; cbn [first_missing In].
  - split; [intros _ f [] | reflexivity].
  - destruct (dict_get f data) as [v|] eqn:E.
    + rewrite IH. split.
      * intros H g [<- | Hg]; [congruence | auto].
      * intros H g Hg. apply H. now right.
    + split; [discriminate|]. intros H. exfalso. apply (H f); auto.
Qed.

Lemma first_missing_some (fields : list string) (data : JsonObject)
  (field : string) :
  first_missing fields data = Some field ->
  dict_get field data = None /\
  exists before after,
    fields = (before ++ field :: after)%list /\
    forall g, In g before -> dict_get g data <> None.
Proof.
  induction fields as [|f fields IH]; cbn [first_missing]; [discriminate|].
  destruct (dict_get f data) as [v|] eqn:E.
  - intros H. destruct (IH H) as [Hn (before & after & -> & Hb)].
    split; [exact Hn|]. exists (f :: before), after. split; [reflexivity|].
    intros g [<- | Hg]; [congruence | auto].
  - intros H. injection H as <-. split; [exact E|].
    exists [], fields. split; [reflexivity | intros g []].
Qed.

Lemma query_of_some (data : JsonObject) :
  (forall f, In f required_fields -> dict_get f data <> None) ->
  exists q, query_of data = Some q /\
            dict_get "date" data = Some (date q) /\
            dict_get "time" data = Some (time q) /\
            dict_get "day" data = Some (day q) /\
            dict_get "weather" data = Some (weather q) /\
            dict_get "peak_hours" data = Some (peak_hours q) /\
            dict_get "weekends" data = Some (weekends q) /\
            dict_get "holidays" data = Some (holidays q).
Proof.
  intros H. unfold required_fields in H. unfold query_of, bind, ret.
  destruct (dict_get "date" data) eqn:E1;
    [|exfalso; apply (H "date"); cbn; tauto].
  destruct (dict_get "time" data) eqn:E2;
    [|exfalso; apply (H "time"); cbn; tauto].
  destruct (dict_get "day" data) eqn:E3;
    [|exfalso; apply (H "day"); cbn; tauto].
  destruct (dict_get "weather" data) eqn:E4;
    [|exfalso; apply (H "weather"); cbn; tauto].
  destruct (dict_get "peak_hours" data) eqn:E5;
    [|exfalso; apply (H "peak_hours"); cbn; tauto].
  destruct (dict_get "weekends" data) eqn:E6;
    [|exfalso; apply (H "weekends"); cbn; tauto].
  destruct (dict_get "holidays" data) eqn:E7;
    [|exfalso; apply (H "holidays"); cbn; tauto].
  eexists. split; [reflexivity|]. cbn. repeat split; assumption.
Qed.

(** X14: what /predict-structured answers by the shape of the request.
    A body that holds all seven required fields is answered with a
    prediction: the answer hands the body back unchanged, other keys
    included, and the predicted number is [predict_passengers] of the seven
    fields. A body that is not empty and lacks a required field is turned
    down (400) with the name of the first field, in the order date, time,
    day, weather, peak_hours, weekends, holidays, that it lacks; an empty
    object and null are turned down with "No structured data provided".
    The 500 answer of the outer [except] is given when [get_json()]
    raises, and to no body that is null or an object. *)
Theorem X14_structured_request_validation
  (to_ordinal : string -> exc Z) (encoders : Encoders)
  (model_predict : DataFrame -> exc Z) (data : JsonObject) :
  ((forall f, In f required_fields -> dict_get f data <> None) ->
   exists q level,
     query_of data = Some q /\
     route_predict_structured to_ordinal encoders model_predict
                              (Json (Some data))
     = StructuredReply
         (predict_passengers to_ordinal encoders model_predict q) level
         data) /\
  ((exists f, In f required_fields /\ dict_get f data = None) ->
   data <> [] ->
   exists f before after,
     required_fields = (before ++ f :: after)%list /\
     (forall g, In g before -> dict_get g data <> None) /\
     dict_get f data = None /\
     route_predict_structured to_ordinal encoders model_predict
                              (Json (Some data))
     = StructuredBadRequest ("Missing required field: " ++ f)) /\
  route_predict_structured to_ordinal encoders model_predict (Json (Some []))
  = StructuredBadRequest "No structured data provided" /\
  route_predict_structured to_ordinal encoders model_predict (Json None)
  = StructuredBadRequest "No structured data provided" /\
  route_predict_structured to_ordinal encoders model_predict NotJson
  = StructuredServerError /\
  (forall body,
     route_predict_structured to_ordinal encoders model_predict (Json body)
     <> StructuredServerError).
Proof.
  cbn [route_predict_structured].
  split; [|split; [|split; [reflexivity | split; [reflexivity|
                                                   split; [reflexivity|]]]]].
  - intros Hall. destruct (query_of_some data Hall) as [q [Hq _]].
    assert (Hm : first_missing required_fields data = None)
      by now apply first_missing_none.
    destruct data as [|item rest].
    { exfalso. apply (Hall "date"); [cbn; tauto | reflexivity]. }
    exists q. eexists. split; [exact Hq|].
    unfold predict_structured. rewrite Hm.
    unfold predict_passengers_of, predict_passengers. rewrite Hq.
    cbn [bind]. reflexivity.
  - intros [f [Hf Hnone]] Hne.
    destruct data as [|item rest]; [congruence|].
    unfold predict_structured.
    destruct (first_missing required_fields (item :: rest)) as [g|] eqn:Hm.
    + destruct (first_missing_some _ _ _ Hm)
        as [Hgn (before & after & Hsplit & Hb)].
      exists g, before, after. auto.
    + exfalso. rewrite first_missing_none in Hm. now apply (Hm f).
  - intros body. unfold predict_structured.
    destruct body as [[|item rest]|]; try discriminate.
    destruct (first_missing required_fields (item :: rest)); discriminate.
Qed.

Lemma X14_structured_request_witness :
  (exists q level,
     query_of demo_body = Some q /\
     route_predict_structured demo_to_ordinal resaved_encoders demo_model
                              (Json (Some demo_body))
     = StructuredReply
         (predict_passengers demo_to_ordinal resaved_encoders demo_model q)
         level demo_body) /\
  exists f before after,
    required_fields = (before ++ f :: after)%list /\
    (forall g, In g before -> dict_get g (tl demo_body) <> None) /\
    dict_get f (tl demo_body) = None /\
    route_predict_structured demo_to_ordinal resaved_encoders demo_model
                             (Json (Some (tl demo_body)))
    = StructuredBadRequest ("Missing required field: " ++ f).
Proof.
  split.
  - apply (proj1 (X14_structured_request_validation demo_to_ordinal
                    resaved_encoders demo_model demo_body)).
    intros f Hf. unfold required_fields in Hf. cbn [In] in Hf.
    repeat (destruct Hf as [<- | Hf]; [discriminate|]). contradiction.
  - apply (proj1 (proj2 (X14_structured_request_validation demo_to_ordinal
                    resaved_encoders demo_model (tl demo_body)))).
    + exists "date". split; [cbn; tauto | reflexivity].
    + discriminate.
Defined.

Example structured_replies :
  predict_structured demo_to_ordinal resaved_encoders demo_model
                     (Some demo_body)
  = StructuredReply 50 "moderate" demo_body /\
  predict_structured demo_to_ordinal resaved_encoders demo_model
                     (Some [("route", "B2"); ("time", "17:30")])
  = StructuredBadRequest "Missing required field: date".
Proof. split; reflexivity. Qed.

(** X15: /predict-structured does not report a failed prediction: when
    all fields are present but the date, the time or a label cannot be
    encoded, or the model raises, the answer is a regular reply with 43
    passengers and the level moderate, as for a real prediction of 43. *)
Theorem X15_structured_reply_hides_failures
  (to_ordinal : string -> exc Z) (encoders : Encoders)
  (model_predict : DataFrame -> exc Z) (data : JsonObject)
  (q : StructuredQuery) :
  query_of data = Some q ->
  encoding_raises to_ordinal encoders q \/
  (exists frame, input_data to_ordinal encoders q = Some frame /\
                 model_predict frame = None) ->
  predict_structured to_ordinal encoders model_predict (Some data)
  = StructuredReply 43 "moderate" data.
Proof.
  intros Hq Hfail.
  assert (Hp : predict_passengers_of to_ordinal encoders model_predict data
               = 43).
  { unfold predict_passengers_of. rewrite Hq. cbn [bind].
    destruct Hfail as [H | [frame [Hf Hm]]].
    - now rewrite (encoding_raises_no_frame _ _ _ H).
    - rewrite Hf. cbn [bind]. now rewrite Hm. }
  assert (Hall : first_missing required_fields data = None).
  { unfold query_of, bind in Hq. unfold required_fields.
    cbn [first_missing].
    destruct (dict_get "date" data); [|discriminate].
    destruct (dict_get "time" data); [|discriminate].
    destruct (dict_get "day" data); [|discriminate].
    destruct (dict_get "weather" data); [|discriminate].
    destruct (dict_get "peak_hours" data); [|discriminate].
    destruct (dict_get "weekends" data); [|discriminate].
    destruct (dict_get "holidays" data); [|discriminate].
    reflexivity. }
  unfold predict_structured. destruct data as [|item rest]; [discriminate|].
  rewrite Hall, Hp. reflexivity.
Qed.

Lemma X15_structured_reply_witness :
  predict_structured demo_to_ordinal resaved_encoders demo_model
                     (Some foggy_body)
  = StructuredReply 43 "moderate" foggy_body.
Proof.
  apply (X15_structured_reply_hides_failures demo_to_ordinal resaved_encoders
           demo_model foggy_body foggy_query); [reflexivity|].
  left. unfold encoding_raises. do 3 right. left. reflexivity.
Defined.

(** ** Crowding levels *)

Lemma structured_reply_level
  (to_ordinal : string -> exc Z) (encoders : Encoders)
  (model_predict : DataFrame -> exc Z) (body : option JsonObject)
  (p : Z) (l : string) (data : JsonObject) :
  predict_structured to_ordinal encoders model_predict body
  = StructuredReply p l data ->
  l = if p <? 30 then "low" else if p <? 60 then "moderate" else "high".
Proof.
  unfold predict_structured.
  destruct body as [[|item rest]|]; try discriminate.
  destruct (first_missing required_fields (item :: rest)); [discriminate|].
  intros H. injection H as <- <- _. reflexivity.
Qed.

(** X16: the two endpoints grade the same predicted number on different
    scales, and the grades overlap: a number that /predict-structured
    calls low (below 30) the conversational reply calls very low or low;
    moderate (30..59) is low, moderate or moderately high there; high
    (from 60) is moderately high or high. The Swahili reply uses the same
    five bands as the English one. *)
Theorem X16_levels_of_the_two_endpoints
  (to_ordinal : string -> exc Z) (encoders : Encoders)
  (model_predict : DataFrame -> exc Z) (body : option JsonObject)
  (p : Z) (l : string) (data : JsonObject) (sd : StructuredQuery) :
  predict_structured to_ordinal encoders model_predict body
  = StructuredReply p l data ->
  In (l, level (get_crowding_insights p sd "English"))
     [("low", "very low"); ("low", "low");
      ("moderate", "low"); ("moderate", "moderate");
      ("moderate", "moderately high");
      ("high", "moderately high"); ("high", "high")] /\
  In (level (get_crowding_insights p sd "English"),
      level (get_crowding_insights p sd "Swahili"))
     [("very low", "kidogo sana"); ("low", "kidogo"); ("moderate", "wastani");
      ("moderately high", "wastani juu"); ("high", "msongamano")].
Proof.
  intros H. apply structured_reply_level in H. subst l.
  unfold get_crowding_insights.
  cbn [String.eqb Ascii.eqb Bool.eqb level].
  destruct (Z.ltb_spec p 20), (Z.ltb_spec p 30), (Z.ltb_spec p 35),
    (Z.ltb_spec p 50), (Z.ltb_spec p 60), (Z.ltb_spec p 65);
    try lia; cbn; tauto.
Qed.

Lemma X16_levels_witness :
  In ("moderate", level (get_crowding_insights 50 demo_query "English"))
     [("low", "very low"); ("low", "low");
      ("moderate", "low"); ("moderate", "moderate");
      ("moderate", "moderately high");
      ("high", "moderately high"); ("high", "high")] /\
  In (level (get_crowding_insights 50 demo_query "English"),
      level (get_crowding_insights 50 demo_query "Swahili"))
     [("very low", "kidogo sana"); ("low", "kidogo"); ("moderate", "wastani");
      ("moderately high", "wastani juu"); ("high", "msongamano")].
Proof.
  apply (X16_levels_of_the_two_endpoints demo_to_ordinal resaved_encoders
           demo_model (Some demo_body) 50 "moderate" demo_body demo_query).
  reflexivity.
Defined.

Example same_number_two_grades :
  level (get_crowding_insights 32 demo_query "English") = "low" /\
  level (get_crowding_insights 62 demo_query "English") = "moderately high" /\
  level (get_crowding_insights 43 demo_query "Swahili") = "wastani".
Proof. repeat split; reflexivity. Qed.

(** ** The encoders of resave_encoders.py *)

Example resaved_codes :
  map (transform (weather_encoder resaved_encoders))
      ["Cloudy"; "Rainy"; "Sunny"; "sunny"]
  = [Some 0; Some 1; Some 2; None] /\
  map (transform (day_encoder resaved_encoders)) day_names
  = [Some 1; Some 5; Some 6; Some 4; Some 0; Some 2; Some 3] /\
  map (transform (peak_hours_encoder resaved_encoders)) ["No"; "Yes"; "True"]
  = [Some 0; Some 1; None].
Proof. repeat split; reflexivity. Qed.

Example fitted_cells :
  (* a label is looked up as the cell of the array holds it: cut to the
     width of the longest fitted label, without trailing NULs *)
  map (transform (peak_hours_encoder resaved_encoders))
      ["Yesterday"; "Nope"; "No" ++ String "000" "x"; "Ye"; "yes"]
  = [Some 1; None; Some 0; None; None] /\
  map (transform (weather_encoder resaved_encoders))
      ["Cloudyy"; "Foggy"; "Sun"]
  = [Some 0; None; None] /\
  classes_ ["Yes"; "Yes" ++ String "000" ""; "No"] = ["No"; "Yes"] /\
  itemsize ["Yes"; "Yes" ++ String "000" ""; "No"] = 4%nat /\
  classes_ ["Rainy"; "Sunny"; "Cloudy"] = ["Cloudy"; "Rainy"; "Sunny"].
Proof. repeat split; reflexivity. Qed.



Example long_label_is_predicted :
  (* the number is the model's, not the fallback *)
  predict_passengers demo_to_ordinal resaved_encoders demo_model
    {| date := "2025-12-25"; time := "17:30"; day := "Thursday";
       weather := "Cloudyy"; peak_hours := "Yesterday"; weekends := "No";
       holidays := "No" |} = 50 /\
  predict_passengers demo_to_ordinal resaved_encoders demo_model foggy_query
  = 43.
Proof. split; reflexivity. Qed.

(** ** The offline scripts *)

(** X19: [convert_to_minutes] of the training script answers, for every
    text, a number of minutes in 0..1440 and never raises; on a time the
    serving extractor returns it agrees with the [time_minutes] of
    [predict_passengers] up to 1440 and clamps what is above, while the
    predictor passes the larger value on to the model. *)
Theorem X19_training_minutes_are_clamped (text s : string) :
  0 <= convert_to_minutes s <= 1440 /\
  exists t minutes,
    extract_time_from_text text = Some t /\
    time_minutes t = Some minutes /\
    convert_to_minutes t = Z.min 1440 minutes.
Proof.
  split.
  - unfold convert_to_minutes, try_except, bind, ret.
    destruct ((strip s =? "")%string || (strip s =? ":00")%string); [lia|].
    destruct (2 <=? List.length (split ":" (strip s)))%nat; [|lia].
    destruct (nth_error (split ":" (strip s)) 0) as [p0|]; [|lia].
    destruct (if isdigit p0 then py_int p0 else Some 0) as [hour|]; [|lia].
    destruct (nth_error (split ":" (strip s)) 1) as [p1|]; [|lia].
    destruct (if isdigit p1 then py_int p1 else Some 0) as [minute|]; lia.
  - destruct (extract_time_ok text) as [h [mi [Ht [Hh Hmi]]]].
    exists (fmt02 h ++ ":" ++ fmt02 mi), (h * 60 + mi).
    split; [exact Ht|].
    assert (Hall :
      forallb (fun h =>
        forallb (fun mi =>
          let t := fmt02 h ++ ":" ++ fmt02 mi in
          match time_minutes t with
          | Some tm => (tm =? h * 60 + mi)
                       && (convert_to_minutes t =? Z.min 1440 tm)
          | None => false
          end) (map Z.of_nat (seq 0 100))) (map Z.of_nat (seq 0 112)) = true)
      by (vm_compute; reflexivity).
    pose proof (forallb_Z_range 112 _ h Hall ltac:(lia)) as Hrow.
    cbv beta in Hrow.
    pose proof (forallb_Z_range 100 _ mi Hrow ltac:(lia)) as Hcell.
    cbv beta zeta in Hcell.
    destruct (time_minutes (fmt02 h ++ ":" ++ fmt02 mi)) as [tm|];
      [|discriminate].
    apply andb_true_iff in Hcell. destruct Hcell as [H1 H2].
    apply Z.eqb_eq in H1, H2. subst tm. auto.
Qed.

Example training_and_serving_minutes :
  (* the same cell read by the training script and by the predictor *)
  map (fun t => (convert_to_minutes t, time_minutes t))
      ["17:30"; "25:00"; "05:15:00"; " 8 : 30 "; "1730"; ""; "-1:30"]
  = [(1050, Some 1050); (1440, Some 1500); (315, Some 315);
     (0, Some 510); (0, None); (0, None); (30, Some (-30))].
Proof. reflexivity. Qed.

Lemma slot_checks :
  forallb (fun i =>
    let slot := nth i generate_time_slots "" in
    (convert_to_minutes slot =? 300 + 15 * Z.of_nat i)
    && match time_minutes slot with
       | Some tm => tm =? 300 + 15 * Z.of_nat i
       | None => false
       end
    && match slot_hour slot, is_peak_hours slot with
       | Some hour, Some flag =>
           (hour =? (300 + 15 * Z.of_nat i) / 60)
           && String.eqb flag (if server_is_peak hour then "Yes" else "No")
       | _, _ => false
       end) (seq 0 68) = true.
Proof. vm_compute. reflexivity. Qed.

(** X20: [generate_time_slots] gives the 68 quarter hours from 05:00 to
    21:45 in order (the slot number i is 300+15i minutes after midnight,
    for the training script and for the predictor alike), so no slot at or
    after 22:00 is generated; the generator and the server read the same
    hour from a slot. *)
Theorem X20_time_slots_are_quarter_hours (i : nat) :
  (i < 68)%nat ->
  List.length generate_time_slots = 68%nat /\
  let slot := nth i generate_time_slots "" in
  convert_to_minutes slot = 300 + 15 * Z.of_nat i /\
  time_minutes slot = Some (300 + 15 * Z.of_nat i) /\
  slot_hour slot = Some ((300 + 15 * Z.of_nat i) / 60) /\
  is_peak_hours slot
  = Some (if server_is_peak ((300 + 15 * Z.of_nat i) / 60)
          then "Yes" else "No").
Proof.
  intros Hi. split; [reflexivity|]. cbv zeta.
  pose proof slot_checks as Hall. rewrite forallb_forall in Hall.
  specialize (Hall i ltac:(apply in_seq; lia)). cbv zeta in Hall.
  rewrite !andb_true_iff in Hall. destruct Hall as [[H1 H2] H3].
  apply Z.eqb_eq in H1.
  destruct (time_minutes (nth i generate_time_slots "")) as [tm|];
    [|discriminate].
  apply Z.eqb_eq in H2.
  destruct (slot_hour (nth i generate_time_slots "")) as [hour|];
    [|discriminate].
  destruct (is_peak_hours (nth i generate_time_slots "")) as [flag|];
    [|discriminate].
  apply andb_true_iff in H3. destruct H3 as [H3 H4].
  apply Z.eqb_eq in H3. apply String.eqb_eq in H4. subst.
  auto.
Qed.

Lemma X20_time_slots_witness :
  List.length generate_time_slots = 68%nat /\
  let slot := nth 67 generate_time_slots "" in
  convert_to_minutes slot = 300 + 15 * Z.of_nat 67 /\
  time_minutes slot = Some (300 + 15 * Z.of_nat 67) /\
  slot_hour slot = Some ((300 + 15 * Z.of_nat 67) / 60) /\
  is_peak_hours slot
  = Some (if server_is_peak ((300 + 15 * Z.of_nat 67) / 60)
          then "Yes" else "No").
Proof. apply (X20_time_slots_are_quarter_hours 67). lia. Defined.

Lemma dataset_is_peak_spec (hour : Z) :
  dataset_is_peak hour = true <-> (6 <= hour < 9 \/ 16 <= hour < 19).
Proof.
  unfold dataset_is_peak.
  rewrite orb_true_iff, !andb_true_iff, !Z.leb_le, !Z.ltb_lt. tauto.
Qed.

Lemma server_is_peak_spec (hour : Z) :
  server_is_peak hour = true <-> (7 <= hour <= 9 \/ 17 <= hour <= 19).
Proof.
  unfold server_is_peak.
  rewrite orb_true_iff, !andb_true_iff, !Z.leb_le. tauto.
Qed.

(** X21: the peak flag of the data generator ([6 <= hour < 9] or
    [16 <= hour < 19]) and the peak flag of the server (7..9 or 17..19)
    differ on exactly four hours: 6 and 16, peak for the generator only,
    and 9 and 19, peak for the server only. *)
Theorem X21_peak_hours_of_generator_and_server (hour : Z) :
  (dataset_is_peak hour = server_is_peak hour <->
   ~ In hour [6; 9; 16; 19]) /\
  (dataset_is_peak hour = true /\ server_is_peak hour = false <->
   In hour [6; 16]) /\
  (dataset_is_peak hour = false /\ server_is_peak hour = true <->
   In hour [9; 19]) /\
  (forall m, 0 <= hour <= 111 -> 0 <= m <= 99 ->
             is_peak_hours (fmt02 hour ++ ":" ++ fmt02 m)
             = Some (if server_is_peak hour then "Yes" else "No")).
Proof.
  split; [|split; [|split]].
  4: { intros m Hh Hm. now apply is_peak_hours_printed. }
  all: cbn [In];
    pose proof (dataset_is_peak_spec hour) as Hd;
    pose proof (server_is_peak_spec hour) as Hs;
    destruct (dataset_is_peak hour), (server_is_peak hour);
    split; intros H; try reflexivity; try discriminate;
    try (destruct H; discriminate).
  all: try (assert (6 <= hour < 9 \/ 16 <= hour < 19) by now apply Hd).
  all: try (assert (7 <= hour <= 9 \/ 17 <= hour <= 19) by now apply Hs).
  all: try (assert (~ (6 <= hour < 9 \/ 16 <= hour < 19))
              by (intros Hc; apply Hd in Hc; discriminate)).
  all: try (assert (~ (7 <= hour <= 9 \/ 17 <= hour <= 19))
              by (intros Hc; apply Hs in Hc; discriminate)).
  all: try lia; exfalso; lia.
Qed.

Example peak_flags_by_hour :
  map (fun h => (dataset_is_peak h, server_is_peak h)) [5; 6; 7; 8; 9; 10]
  = [(false, false); (true, false); (true, true); (true, true);
     (false, true); (false, false)].
Proof. reflexivity. Qed.

(** *** The feature order of the training script *)

Lemma has_column_iff (name : string) (columns : list string) :
  has_column name columns = true <-> In name columns.
Proof.
  unfold has_column. rewrite existsb_exists. split.
  - intros [x [Hx Heq]]. apply String.eqb_eq in Heq. now subst.
  - intros H. exists name. split; [exact H | apply String.eqb_refl].
Qed.

Lemma has_column_false (name : string) (columns : list string) :
  ~ In name columns -> has_column name columns = false.
Proof.
  intros H. apply not_true_iff_false. intros Hc.
  now apply has_column_iff in Hc.
Qed.

Lemma require_columns_ok (names columns : list string) :
  (forall n, In n names -> In n columns) ->
  require_columns names columns = Some tt.
Proof.
  induction names as [|n names IH]; intros H; cbn [require_columns];
    [reflexivity|].
  unfold require_column.
  rewrite (proj2 (has_column_iff n columns)) by (apply H; now left).
  cbn [bind ret]. apply IH. intros m Hm. apply H. now right.
Qed.

Lemma csv_features_in (x : string) (columns : list string) :
  In x (csv_features columns) <->
  In x columns /\ x <> "date" /\ x <> "passengers".
Proof.
  unfold csv_features. rewrite !filter_In, !negb_true_iff, !String.eqb_neq.
  tauto.
Qed.

(** What the script computes from the columns of the file, when the file
    has no column date_ordinal of its own. *)
Lemma training_columns_value (columns order : list string) :
  ~ In "date_ordinal" columns ->
  training_columns columns = Some order ->
  In "date" columns /\ In "passengers" columns /\
  order = (csv_features columns ++ ["date_ordinal"]
           ++ (if has_column "day" columns then [] else ["day"]))%list.
Proof.
  intros Hno. unfold training_columns, require_column, drop_column, bind, ret.
  destruct (has_column "date" columns) eqn:Hd; [|discriminate].
  unfold assign_column.
  rewrite (has_column_false _ _ Hno).
  match goal with
  | |- context [if has_column "day" ?l then _ else _] =>
      assert (Hday : has_column "day" l = has_column "day" columns)
  end.
  { unfold has_column. rewrite existsb_app. cbn. now rewrite orb_false_r. }
  rewrite Hday.
  destruct (has_column "date" (if has_column "day" columns then _ else _));
    [|discriminate].
  destruct (require_columns _ _); [|discriminate].
  destruct (has_column "time_value" _); [|discriminate].
  destruct (has_column "passengers" _) eqn:Hp; [|discriminate].
  intros H. injection H as <-.
  apply has_column_iff in Hd. apply has_column_iff in Hp.
  apply filter_In in Hp. destruct Hp as [Hp _].
  split; [exact Hd|]. split.
  - destruct (has_column "day" columns);
      rewrite ?in_app_iff in Hp; cbn [In] in Hp;
      intuition discriminate.
  - unfold csv_features.
    destruct (has_column "day" columns); rewrite !filter_app; cbn;
      rewrite ?app_nil_r, <- ?app_assoc; reflexivity.
Qed.

(** X22: on a file without a column date_ordinal the training script
    arrives at the feature order hard-coded in app.py exactly when the
    file has the columns date and passengers and its other columns are, in
    this order, day, weather, time_value, peak_hours, weekends, holidays:
    the script keeps the order of the file and puts date_ordinal last. With
    the column order generate.py writes, time_value comes before weather
    and the two orders differ. *)
Theorem X22_training_order_follows_the_file (columns : list string) :
  ~ In "date_ordinal" columns ->
  (training_columns columns = Some training_feature_order <->
   In "date" columns /\ In "passengers" columns /\
   csv_features columns
   = ["day"; "weather"; "time_value"; "peak_hours"; "weekends"; "holidays"])
  /\ training_columns generated_columns
     = Some ["day"; "time_value"; "weather"; "peak_hours"; "weekends";
             "holidays"; "date_ordinal"].
Proof.
  intros Hno. split; [|reflexivity]. split.
  - intros H. destruct (training_columns_value _ _ Hno H) as (Hd & Hp & Ho).
    split; [exact Hd|]. split; [exact Hp|].
    unfold training_feature_order in Ho.
    destruct (has_column "day" columns) eqn:Hday.
    + rewrite app_nil_r in Ho.
      change ["day"; "weather"; "time_value"; "peak_hours"; "weekends";
              "holidays"; "date_ordinal"]
        with (["day"; "weather"; "time_value"; "peak_hours"; "weekends";
               "holidays"] ++ ["date_ordinal"])%list in Ho.
      apply app_inj_tail in Ho. now destruct Ho.
    + exfalso. rewrite app_assoc in Ho.
      change ["day"; "weather"; "time_value"; "peak_hours"; "weekends";
              "holidays"; "date_ordinal"]
        with (["day"; "weather"; "time_value"; "peak_hours"; "weekends";
               "holidays"] ++ ["date_ordinal"])%list in Ho.
      apply app_inj_tail in Ho. destruct Ho as [_ Ho]. discriminate.
  - intros (Hd & Hp & Hf).
    assert (Hin : forall x,
               In x ["day"; "weather"; "time_value"; "peak_hours";
                     "weekends"; "holidays"] -> In x columns).
    { intros x Hx. rewrite <- Hf in Hx. now apply csv_features_in in Hx. }
    assert (Hday : has_column "day" columns = true)
      by (apply has_column_iff, Hin; cbn; tauto).
    assert (Hin' : forall x,
               In x ["day"; "weather"; "time_value"; "peak_hours";
                     "weekends"; "holidays"] ->
               In x (filter (fun c => negb (c =? "date")%string)
                            (columns ++ ["date_ordinal"]))).
    { intros x Hx. rewrite filter_app. apply in_or_app. left.
      rewrite <- Hf in Hx. unfold csv_features in Hx.
      now apply filter_In in Hx. }
    unfold training_columns, require_column, drop_column, assign_column.
    rewrite (proj2 (has_column_iff "date" columns) Hd).
    rewrite (has_column_false _ _ Hno).
    assert (Hday' : has_column "day" (columns ++ ["date_ordinal"]) = true)
      by (apply has_column_iff, in_or_app; left; apply Hin; cbn; tauto).
    rewrite Hday'. cbn [bind ret].
    rewrite (proj2 (has_column_iff "date" (columns ++ ["date_ordinal"])))
      by (apply in_or_app; now left).
    cbn [bind ret].
    rewrite require_columns_ok
      by (intros n Hn; apply Hin'; cbn [In] in *; tauto).
    cbn [bind ret].
    rewrite (proj2 (has_column_iff "time_value" _))
      by (apply Hin'; cbn; tauto).
    cbn [bind ret].
    rewrite (proj2 (has_column_iff "passengers" _)).
    + rewrite !filter_app. cbn. unfold csv_features in Hf. rewrite Hf.
      reflexivity.
    + apply filter_In. split; [apply in_or_app; now left | reflexivity].
Qed.

Lemma X22_training_order_witness :
  training_columns ["date"; "day"; "weather"; "time_value"; "passengers";
                    "peak_hours"; "weekends"; "holidays"]
  = Some training_feature_order.
Proof.
  apply (proj1 (X22_training_order_follows_the_file
                  ["date"; "day"; "weather"; "time_value"; "passengers";
                   "peak_hours"; "weekends"; "holidays"]
                  ltac:(cbn; intuition discriminate))).
  repeat split; cbn; tauto.
Defined.
